(** * Complex graphing calculator: the arithmetic engine and the interpreter

    A shallow embedding of the class [Complex] of script.js, of the two
    [parseNumber] variants, of the stack interpreter [userFunction] of the
    main script and of the loop that evaluates a batch of samples, with the
    properties of the specification stated over them.

    JavaScript numbers are IEEE-754 binary64 values: they are modelled by
    Rocq's primitive floats, whose operations are the IEEE ones.  The
    variable map [calculatedVars] is a [gmap] from names to values. *)

From Stdlib Require Import Ascii ZArith Floats Bool Lia.
From stdpp Require Import gmap strings list.

Local Open Scope float_scope.

(** ** The [Math] object

    [Math.pow], [Math.log], [Math.exp], [Math.cos], [Math.sin] and
    [Math.atan2] belong to the JavaScript runtime, not to the repository.
    They are taken as an interface.  Its laws are the values ECMA-262 fixes
    for the special arguments (zeros, infinities, NaN) and two powers,
    [(-1)^2 = 1] and [1^0.5 = 1], that every engine computes exactly. *)

Definition not_finite (x : float) : Prop :=
  x = infinity \/ x = neg_infinity \/ x = nan.

Class MathLib := {
  pow : float -> float -> float;
  log : float -> float;
  exp : float -> float;
  cos : float -> float;
  sin : float -> float;
  atan2 : float -> float -> float;
  (* Number::exponentiate: a base +0 or -0 with a positive exponent that
     is not an odd integer gives +0 *)
  pow_pos_zero_2 : pow 0 2 = 0;
  pow_neg_zero_2 : pow neg_zero 2 = 0;
  pow_pos_zero_half : pow 0 0.5 = 0;
  pow_neg_zero_half : pow neg_zero 0.5 = 0;
  (* two exact powers *)
  pow_neg1_2 : pow (-1) 2 = 1;
  pow_1_half : pow 1 0.5 = 1;
  (* Math.log: "if n is either +0 or -0, return -Infinity" *)
  log_pos_zero : log 0 = neg_infinity;
  log_neg_zero : log neg_zero = neg_infinity;
  (* Math.cos, Math.sin: "if n is not finite, return NaN" *)
  cos_infinity : cos infinity = nan;
  cos_neg_infinity : cos neg_infinity = nan;
  cos_nan : cos nan = nan;
  sin_infinity : sin infinity = nan;
  sin_neg_infinity : sin neg_infinity = nan;
  sin_nan : sin nan = nan
}.

(** A coarse [Math] object: exact on squares, on square roots and on the
    special arguments, NaN wherever ECMA-262 leaves the value to the
    engine.  It shows that the laws of [MathLib] can be met and serves to
    run examples; nothing is proved from its particular values. *)

Definition coarse_pow (x y : float) : float :=
  if y =? 2 then x * x
  else if y =? 0.5 then
    if x =? neg_infinity then infinity else sqrt x + 0
  else nan.

Definition coarse_log (x : float) : float :=
  if is_zero x then neg_infinity else if x =? 1 then 0 else nan.

Definition coarse_exp (x : float) : float :=
  if is_zero x then 1 else if x =? neg_infinity then 0 else
  if x =? infinity then infinity else nan.

Definition coarse_cos (x : float) : float :=
  if is_zero x then 1 else nan.

Definition coarse_sin (x : float) : float :=
  if is_zero x then x else nan.

Definition coarse_atan2 (y x : float) : float :=
  if is_zero y && (0 <? x) then y else nan.

#[refine] Instance coarse_math : MathLib := {|
  pow := coarse_pow; log := coarse_log; exp := coarse_exp;
  cos := coarse_cos; sin := coarse_sin; atan2 := coarse_atan2 |}.
Proof. all: reflexivity. Defined.

(** ** JavaScript strings and the conversion [Number(string)]

    A string is a sequence of 8-bit code units (Latin-1); strings with
    code units above 255 are outside the model. *)

Module Js.

(** White space and line terminators below 256, as [trim], the regular
    expression class [\s] and [Number] understand them. *)
Definition is_white_space (c : ascii) : bool :=
  match c with
  | "009" | "010" | "011" | "012" | "013" | " " | "160" => true
  | _ => false
  end%char.

Fixpoint trimStart (s : string) : string :=
  match s with
  | String c s' => if is_white_space c then trimStart s' else s
  | EmptyString => EmptyString
  end.

Definition trim (s : string) : string :=
  String.rev (trimStart (String.rev (trimStart s))).

(** [s.substring(a, b)] for [0 <= a <= b]. *)
Definition substring (s : string) (a b : nat) : string :=
  String.substring a (b - a) s.

(** [s[i]]: [None] stands for [undefined]. *)
Definition at_index (s : string) (i : nat) : option ascii := String.get i s.

(** [s[s.length - 1]]; index -1 of the empty string reads [undefined]. *)
Definition last_char (s : string) : option ascii :=
  match String.length s with
  | O => None
  | S n => at_index s n
  end.

(** [o === c] for a character read by index *)
Definition char_is (o : option ascii) (c : ascii) : bool :=
  match o with
  | Some c' => Ascii.eqb c' c
  | None => false
  end.

(** [hay.includes(needle)] *)
Definition includes (hay needle : string) : bool :=
  match String.index 0 needle hay with
  | Some _ => true
  | None => false
  end.

(** [hay.includes(s[i])]: an [undefined] argument is searched for as the
    text "undefined". *)
Definition includes_char (hay : string) (c : option ascii) : bool :=
  match c with
  | Some c => includes hay (String c EmptyString)
  | None => includes hay "undefined"
  end.

(** [s.replace(/,/g, ".")] and [s.replace(/\s/g, "")] *)
Fixpoint replace_commas (s : string) : string :=
  match s with
  | String c s' =>
      String (if Ascii.eqb c "," then "."%char else c) (replace_commas s')
  | EmptyString => EmptyString
  end.

Fixpoint remove_white_space (s : string) : string :=
  match s with
  | String c s' =>
      if is_white_space c then remove_white_space s'
      else String c (remove_white_space s')
  | EmptyString => EmptyString
  end.

(** [s.split("\n")] *)
Fixpoint split_lines_aux (cur : string) (s : string) : list string :=
  match s with
  | String c s' =>
      if Ascii.eqb c "010" then String.rev cur :: split_lines_aux EmptyString s'
      else split_lines_aux (String c cur) s'
  | EmptyString => [String.rev cur]
  end.

Definition split_lines (s : string) : list string :=
  split_lines_aux EmptyString s.

(** *** StringToNumber (ECMA-262, 7.1.4.1.1)

    The nearest binary64 value of [m * 10 ^ e10], ties to even: for a
    negative exponent the quotient is taken with more than 64 bits, the
    bits lost are recorded in the last one (rounding to odd), and the
    result is rounded once. *)
Definition round_decimal (m e10 : Z) : float :=
  if (m =? 0)%Z then 0
  else if (0 <=? e10)%Z then
    SF2Prim (binary_normalize prec emax (m * 10 ^ e10) 0 false)
  else
    let d := (10 ^ (- e10))%Z in
    let s := (Z.log2 d + 65)%Z in
    let q := ((m * 2 ^ s) / d)%Z in
    let sticky := negb (((m * 2 ^ s) mod d) =? 0)%Z in
    let q' := if sticky then Z.lor q 1 else q in
    SF2Prim (binary_normalize prec emax q' (- s) false).

Definition digit_value (radix : Z) (c : ascii) : option Z :=
  let n := Z.of_N (Ascii.N_of_ascii c) in
  let v :=
    if (48 <=? n)%Z && (n <=? 57)%Z then (n - 48)%Z
    else if (97 <=? n)%Z && (n <=? 102)%Z then (n - 87)%Z
    else if (65 <=? n)%Z && (n <=? 70)%Z then (n - 55)%Z
    else 99%Z in
  if (v <? radix)%Z then Some v else None.

(** The longest run of digits at the head of [s]: the number read (on
    top of [acc]), how many digits there were, and what follows. *)
Fixpoint digits (radix : Z) (s : string) (acc : Z) (count : Z)
    : Z * Z * string :=
  match s with
  | String c s' =>
      match digit_value radix c with
      | Some v => digits radix s' (acc * radix + v)%Z (count + 1)%Z
      | None => (acc, count, s)
      end
  | EmptyString => (acc, count, s)
  end.

(** ExponentPart, which must reach the end of the text. *)
Definition exponent_part (s : string) : option Z :=
  match s with
  | EmptyString => Some 0%Z
  | String c s' =>
      if Ascii.eqb c "e" || Ascii.eqb c "E" then
        let '(sign, s'') :=
          match s' with
          | String "+" t => (1%Z, t)
          | String "-" t => ((-1)%Z, t)
          | _ => (1%Z, s')
          end in
        let '(v, n, rest) := digits 10 s'' 0 0 in
        if (0 <? n)%Z && String.eqb rest "" then Some (sign * v)%Z else None
      else None
  end.

(** StrUnsignedDecimalLiteral *)
Definition unsigned_decimal (s : string) : option float :=
  if String.eqb s "Infinity" then Some infinity
  else
    let '(ip, ni, r1) := digits 10 s 0 0 in
    let '(m, nf, r2) :=
      match r1 with
      | String "." t => digits 10 t ip 0
      | _ => (ip, 0%Z, r1)
      end in
    if (0 <? ni + nf)%Z then
      match exponent_part r2 with
      | Some e => Some (round_decimal m (e - nf))
      | None => None
      end
    else None.

(** NonDecimalIntegerLiteral: 0x, 0o, 0b and their capitals. *)
Definition non_decimal (s : string) : option float :=
  match s with
  | String "0" (String c t) =>
      let radix :=
        if Ascii.eqb c "x" || Ascii.eqb c "X" then Some 16%Z
        else if Ascii.eqb c "o" || Ascii.eqb c "O" then Some 8%Z
        else if Ascii.eqb c "b" || Ascii.eqb c "B" then Some 2%Z
        else None in
      match radix with
      | Some rx =>
          let '(v, n, rest) := digits rx t 0 0 in
          if (0 <? n)%Z && String.eqb rest "" then Some (round_decimal v 0)
          else None
      | None => None
      end
  | _ => None
  end.

Definition or_nan (o : option float) : float :=
  match o with Some x => x | None => nan end.

Definition StringToNumber (s : string) : float :=
  let t := trim s in
  if String.eqb t "" then 0
  else
    match non_decimal t with
    | Some v => v
    | None =>
        match t with
        | String "+" u => or_nan (unsigned_decimal u)
        | String "-" u => or_nan (option_map opp (unsigned_decimal u))
        | _ => or_nan (unsigned_decimal t)
        end
    end.

End Js.

(** ** The class [Complex] of script.js *)

Record Complex := mkComplex { re : float; im : float }.

(** The values found on the evaluation stack and passed to the static
    methods of [Complex]: a bare number, a [Complex] object, [undefined]
    (the result of [pop] on an empty array), or one of the objects every
    object literal inherits from [Object.prototype] (reached through the
    [in] test of the interpreter), named by its key. *)
Inductive Value :=
| VNum (x : float)
| VComplex (c : Complex)
| VUndefined
| VBuiltin (key : string).

(** What the code raises, together with the error kinds the specification
    names; the code raises none of the latter. *)
Inductive ErrorKind :=
| TypeError
| RangeError
| StackUnderflow
| UnknownIdentifier (name : string)
| ParseError
| InvalidOperator (symbol : string).

(** The result of running a piece of code: it returns, or it throws.
    [Unmodelled] marks the two places where the run leaves this model:
    a trigonometric operation (complex.js is not part of the sources) and
    an assignment that replaces the prototype of the variable map. *)
Inductive Outcome (A : Type) :=
| Return (a : A)
| Throw (e : ErrorKind)
| Unmodelled.
Arguments Return {A} a.
Arguments Throw {A} e.
Arguments Unmodelled {A}.

Definition bind {A B} (m : Outcome A) (k : A -> Outcome B) : Outcome B :=
  match m with
  | Return a => k a
  | Throw e => Throw e
  | Unmodelled => Unmodelled
  end.

Notation "'let*' x ':=' m 'in' k" := (bind m (fun x => k))
  (at level 10, x pattern, m at level 200, k at level 200).

Module Complex.

Section WithMath.
Context {M : MathLib}.

(** The static methods, on [Complex] arguments (for which the line
    [if (num.constructor !== Complex) num = new Complex(num)] does
    nothing). *)

Definition fromPolar (r theta : float) : Complex :=
  let re := r * cos theta in
  let im := r * sin theta in
  mkComplex re im.

Definition add (num1 num2 : Complex) : Complex :=
  mkComplex (re num1 + re num2) (im num1 + im num2).

Definition subtract (num1 num2 : Complex) : Complex :=
  mkComplex (re num1 - re num2) (im num1 - im num2).

Definition multiply (in1 in2 : Complex) : Complex :=
  let num1 := re in1 * re in2 in
  let num2 := im in1 * re in2 in
  let num3 := re in1 * im in2 in
  let num4 := im in1 * im in2 in
  mkComplex (num1 - num4) (num2 + num3).

Record Polar := mkPolar { r : float; theta : float }.

Definition toPolar (num : Complex) : Polar :=
  let r := pow (pow (re num) 2 + pow (im num) 2) 0.5 in
  let theta := atan2 (im num) (re num) in
  mkPolar r theta.

(** [new Complex(r)]: the imaginary part takes its default, 0. *)
Definition abs (num : Complex) : Complex :=
  mkComplex (r (toPolar num)) 0.

Definition raise (num1 num2 : Complex) : Complex :=
  if (re (abs num1) =? 0) && negb (re (abs num2) =? 0) then mkComplex 0 0
  else
    let num1Polar := toPolar num1 in
    (* Absolute value and argument of base *)
    let absB := r num1Polar in
    let argB := theta num1Polar in
    fromPolar (exp (re num2 * log absB - im num2 * argB))
              (im num2 * log absB + re num2 * argB).

(** [Complex.raise(num2, -1)]: [raise] turns the bare [-1] into
    [new Complex(-1)]. *)
Definition divide (num1 num2 : Complex) : Complex :=
  let num2 := raise num2 (mkComplex (-1) 0) in
  multiply num1 num2.

Definition ln (num1 : Complex) : Complex :=
  let polar := toPolar num1 in
  mkComplex (log (r polar)) (theta polar).

End WithMath.

(** *** The methods as the interpreter calls them

    [operation.function.apply(this, values)] passes the elements of
    [values] as arguments; an argument that is missing is [undefined]. *)

Definition arg (i : nat) (values : list Value) : Value :=
  nth i values VUndefined.

(** [if (num.constructor !== Complex) num = new Complex(num)]: reading
    [constructor] of [undefined] throws a TypeError; a number becomes
    [(num, 0)]; any other object goes through [Number], which yields NaN
    for it. *)
Definition promote (v : Value) : Outcome Complex :=
  match v with
  | VUndefined => Throw TypeError
  | VComplex c => Return c
  | VNum x => Return (mkComplex x 0)
  | VBuiltin _ => Return (mkComplex nan 0)
  end.

Definition binary (f : Complex -> Complex -> Complex)
    (values : list Value) : Outcome Value :=
  let* num1 := promote (arg 0 values) in
  let* num2 := promote (arg 1 values) in
  Return (VComplex (f num1 num2)).

Definition unary (f : Complex -> Complex)
    (values : list Value) : Outcome Value :=
  let* num1 := promote (arg 0 values) in
  Return (VComplex (f num1)).

(** [abs] does not promote its argument: [toPolar] reads [num.re] and
    [num.im] directly.  On [undefined] that throws; on a value without
    these properties both read as [undefined], which [Math.pow] and
    [Math.atan2] convert to NaN. *)
Definition abs_method {M : MathLib} (values : list Value) : Outcome Value :=
  match arg 0 values with
  | VUndefined => Throw TypeError
  | VComplex c => Return (VComplex (abs c))
  | VNum _ | VBuiltin _ => Return (VComplex (abs (mkComplex nan nan)))
  end.

End Complex.

(** ** script.js: the literal parser *)

Module ScriptJs.

(** The loop [for (let i = 1; i < num.length; i++)] that cuts [num] before
    every sign after the first character; the state is [numbers] and
    [beginning]. *)
Definition split_step (num : string) (acc : list string * nat) (i : nat)
    : list string * nat :=
  let '(numbers, beginning) := acc in
  if Js.includes_char "+-" (Js.at_index num i)
  then (numbers ++ [Js.substring num beginning i], i)
  else (numbers, beginning).

Definition split_terms (num : string) : list string :=
  let '(numbers, beginning) :=
    fold_left (split_step num) (seq 1 (String.length num - 1)) ([], 0%nat) in
  numbers ++ [Js.substring num beginning (String.length num)].

(** The body of the second loop: one term added to [out]. *)
Definition add_term (out : Complex) (number : string) : Complex :=
  if Js.includes_char "iIjJ" (Js.last_char number) then
    (* Imaginary *)
    let strNum := Js.substring number 0 (String.length number - 1) in
    (* If imaginary part has no number, assume it is one. *)
    if (String.length strNum <=? 1)%nat && Js.includes "+-" strNum then
      if Js.char_is (Js.at_index strNum 0) "-"
      then mkComplex (re out) (im out - 1)
      else mkComplex (re out) (im out + 1)
    else mkComplex (re out) (im out + Js.StringToNumber strNum)
  else
    (* Real *)
    mkComplex (re out + Js.StringToNumber number) (im out).

(** Parse a complex number string e.g. "4 - 3i" and return Complex value. *)
Definition parseNumber (num : string) : Complex :=
  let num := Js.replace_commas num in
  let num := Js.remove_white_space num in
  fold_left add_term (split_terms num) (mkComplex 0 0).

End ScriptJs.

(** ** The main script: variables, tokens and the interpreter

    [userFunction] is the same in both copies of the main script; only the
    name of the operation table differs. *)

Module MainScript.

Inductive VariableType := constant | range.

Record VariableEntry := mkVariable {
  name : string;
  type : VariableType;
  value : Complex
}.

(** [Math.PI] and [Math.E] *)
Definition PI : float := 0x1.921fb54442d18p+1.
Definition E : float := 0x1.5bf0a8b145769p+1.

(** List of all variables, with e and pi as default. *)
Definition defaultVariableList : list VariableEntry :=
  [ mkVariable "pi" constant (mkComplex PI 0);
    mkVariable "e" constant (mkComplex E 0) ].

(** Gets the index of a variable in variableList; [None] is the -1 of the
    source. *)
Fixpoint getVariableIndex_from (i : nat) (variableList : list VariableEntry)
    (line : string) : option nat :=
  match variableList with
  | [] => None
  | v :: rest =>
      if String.eqb (name v) line then Some i
      else getVariableIndex_from (S i) rest line
  end.

Definition getVariableIndex (variableList : list VariableEntry)
    (line : string) : option nat :=
  getVariableIndex_from 0 variableList line.

(** Convert a complex number string e.g. "4" or "3i" into a Complex
    object.  [new Complex(s)] and [new Complex(0, s)] convert the string
    with [Number]. *)
Definition parseNumber (num : string) : Complex :=
  if negb (Js.char_is (Js.last_char num) "i") then
    mkComplex (Js.StringToNumber num) 0
  else
    let num := if String.eqb num "i" then "1i" else num in
    mkComplex 0 (Js.StringToNumber
                   (Js.substring num 0 (String.length num - 1))).

Record operation := mkOperation {
  args : nat;
  function : list Value -> Outcome Value
}.

(** The symbols for the available functions.  The main script takes the
    methods from complex.js, which is not among the sources: the first
    seven are modelled by the static methods of the class [Complex] of
    script.js, the six trigonometric ones are left out of the model. *)
Definition operations {M : MathLib} (line : string) : option operation :=
  if String.eqb line "+" then
    Some (mkOperation 2 (Complex.binary Complex.add))
  else if String.eqb line "-" then
    Some (mkOperation 2 (Complex.binary Complex.subtract))
  else if String.eqb line "*" then
    Some (mkOperation 2 (Complex.binary Complex.multiply))
  else if String.eqb line "/" then
    Some (mkOperation 2 (Complex.binary Complex.divide))
  else if String.eqb line "^" then
    Some (mkOperation 2 (Complex.binary Complex.raise))
  else if String.eqb line "ln" then
    Some (mkOperation 1 (Complex.unary Complex.ln))
  else if String.eqb line "abs" then
    Some (mkOperation 1 Complex.abs_method)
  else if existsb (String.eqb line)
            ["sin"; "cos"; "tan"; "asin"; "acos"; "atan"]
  then Some (mkOperation 1 (fun _ => Unmodelled))
  else None.

(** The keys every object literal inherits from [Object.prototype]; the
    [in] operator finds them in the empty [calculatedVars]. *)
Definition object_prototype_keys : list string :=
  [ "constructor"; "__defineGetter__"; "__defineSetter__"; "hasOwnProperty";
    "__lookupGetter__"; "__lookupSetter__"; "isPrototypeOf";
    "propertyIsEnumerable"; "toString"; "valueOf"; "__proto__";
    "toLocaleString" ].

Definition inherited (key : string) : bool :=
  existsb (String.eqb key) object_prototype_keys.

(** [key in calculatedVars] *)
Definition has_property (calculatedVars : gmap string Value) (key : string)
    : bool :=
  match calculatedVars !! key with
  | Some _ => true
  | None => inherited key
  end.

(** [calculatedVars[key]] *)
Definition get_property (calculatedVars : gmap string Value) (key : string)
    : Value :=
  match calculatedVars !! key with
  | Some v => v
  | None => if inherited key then VBuiltin key else VUndefined
  end.

(** [calculatedVars[key] = v].  The key [__proto__] is a setter: it
    ignores a value that is not an object and otherwise replaces the
    prototype of the map, which this model does not follow. *)
Definition set_property (calculatedVars : gmap string Value) (key : string)
    (v : Value) : Outcome (gmap string Value) :=
  if String.eqb key "__proto__" then
    match v with
    | VNum _ | VUndefined => Return calculatedVars
    | VComplex _ | VBuiltin _ => Unmodelled
    end
  else Return (<[key := v]> calculatedVars).

Record State := mkState {
  calculatedVars : gmap string Value;
  functionStack : list Value
}.

Definition initial : State := mkState ∅ [].

(** [functionStack.push(v)] *)
Definition push (v : Value) (st : State) : State :=
  mkState (calculatedVars st) (functionStack st ++ [v]).

(** [functionStack.pop()]: the last element and the array without it;
    [undefined] when the array is empty. *)
Definition pop (functionStack : list Value) : Value * list Value :=
  match last functionStack with
  | Some v => (v, removelast functionStack)
  | None => (VUndefined, [])
  end.

(** [array.slice(start)]: a negative [start] counts from the end. *)
Definition slice (A : Type) (l : list A) (start : Z) : list A :=
  let len := Z.of_nat (length l) in
  let k := if (start <? 0)%Z then Z.max (len + start) 0
           else Z.min start len in
  drop (Z.to_nat k) l.
Arguments slice {A} l start.

(** [line[0] === c] *)
Definition first_char_is (line : string) (c : ascii) : bool :=
  Js.char_is (Js.at_index line 0) c.

(** [line.substring(1).trim()], the name an assignment line binds. *)
Definition assigned_name (line : string) : string :=
  Js.trim (Js.substring line 1 (String.length line)).

Section Interpreter.
Context {M : MathLib}.
Variable variableList : list VariableEntry.
(** The argument of [userFunction]: [new Complex(x, 0)] when the samples
    are computed, the bare number [tracingPoint] when the label is drawn. *)
Variable num : Value.

(** Store last element in the stack as a variable *)
Definition assign (line : string) (st : State) : Outcome State :=
  let key := assigned_name line in
  let '(v, stack) := pop (functionStack st) in
  let* vars := set_property (calculatedVars st) key v in
  Return (mkState vars stack).

(** Line is an operation *)
Definition apply_operation (operation : operation) (st : State)
    : Outcome State :=
  let stack := functionStack st in
  let len := Z.of_nat (length stack) in
  let values := slice stack (len - Z.of_nat (args operation)) in
  let* value := function operation values in
  (* functionStack.length -= operation.args *)
  if (len - Z.of_nat (args operation) <? 0)%Z then Throw RangeError
  else
    Return (mkState (calculatedVars st)
              (take (length stack - args operation) stack ++ [value])).

(** One turn of the loop [for (let i = 0; i < functionList.length; i++)]. *)
Definition evalLine (st : State) (token : string) : Outcome State :=
  let line := Js.trim token in
  (* Check if line is x *)
  if String.eqb line "x" then Return (push num st)
  (* Check if line should be interpreted or if it is commented out or empty *)
  else if negb (String.eqb line "") && negb (first_char_is line "#") then
    let variableIndex := getVariableIndex variableList line in
    let isCalculatedVariable := has_property (calculatedVars st) line in
    if first_char_is line "=" then assign line st
    else
      match operations line with
      | Some operation => apply_operation operation st
      | None =>
          match variableIndex with
          | Some i =>
              (* Line is a user defined variable *)
              match variableList !! i with
              | Some v => Return (push (VComplex (value v)) st)
              | None => Throw TypeError
              end
          | None =>
              if isCalculatedVariable then
                (* Line is a calculated variable *)
                Return (push (get_property (calculatedVars st) (Js.trim line))
                          st)
              else
                (* Line is a number/constant *)
                Return (push (VComplex (parseNumber line)) st)
          end
      end
  else Return st.

Fixpoint evalLines (st : State) (functionList : list string)
    : Outcome State :=
  match functionList with
  | [] => Return st
  | token :: rest => let* st' := evalLine st token in evalLines st' rest
  end.

(** The interpreter on a token sequence: the stack left at the end. *)
Definition run (functionList : list string) : Outcome (list Value) :=
  let* st := evalLines initial functionList in
  Return (functionStack st).

(** [ExpressionParser.parseExpression] (expression-parser.js) is not among
    the sources: it is a parameter of [userFunction]. *)
Variable parseExpression : string -> list string.

Definition functionList (functionText : string) : list string :=
  let lines :=
    List.filter (fun line => negb (String.eqb (Js.trim line) ""))
      (Js.split_lines functionText) in
  flat_map (fun line =>
    if Js.includes_char "=#" (Js.at_index line 0) then [line]
    else parseExpression line) lines.


End Interpreter.

(** The thirteen operator symbols, and the seven among them whose
    implementation is in script.js. *)
Definition operator_symbols : list string :=
  ["+"; "-"; "*"; "/"; "^"; "ln"; "abs";
   "sin"; "cos"; "tan"; "asin"; "acos"; "atan"].

Definition script_symbols : list string :=
  ["+"; "-"; "*"; "/"; "^"; "ln"; "abs"].

(** The tokens that reach the last three branches of [evalLine]: once
    trimmed, not [x], not empty, not a comment, not an assignment, not an
    operator. *)
Definition is_name {M : MathLib} (token : string) : bool :=
  let line := Js.trim token in
  negb (String.eqb line "x")
  && negb (String.eqb line "")
  && negb (first_char_is line "#")
  && negb (first_char_is line "=")
  && match operations line with Some _ => false | None => true end.

(** *** The evaluation batch *)

(** The [value] of the inputs [minX], [maxX] and [resolution]. *)
Record Controls := mkControls {
  minX : string;
  maxX : string;
  resolution : string
}.

Section Batch.
Variable R : Type.
Variable func : Value -> Outcome R.

(** The loop [for (let i = 0; i <= (end - begin) / step; i++)] run for at
    most [fuel] turns; [None] when the fuel is spent before the test
    fails. *)
Fixpoint sample_loop (fuel : nat) (begin end_ step i : float)
    (resultList : list R) : option (Outcome (list R)) :=
  match fuel with
  | O => None
  | S fuel' =>
      if i <=? (end_ - begin) / step then
        let x := i * step + begin in
        match func (VComplex (mkComplex x 0)) with
        | Return result =>
            sample_loop fuel' begin end_ step (i + 1) (resultList ++ [result])
        | Throw e => Some (Throw e)
        | Unmodelled => Some Unmodelled
        end
      else Some (Return resultList)
  end.

(** Update the values in resultList by calling func for each value of x. *)
Definition updateFunctionValues (fuel : nat) (controls : Controls)
    : option (Outcome (list R)) :=
  let begin := Js.StringToNumber (minX controls) in
  let end_ := Js.StringToNumber (maxX controls) in
  let step := PrimFloat.abs (Js.StringToNumber (resolution controls)) in
  sample_loop fuel begin end_ step 0 [].

End Batch.

(** The resolution [updateCanvas] hands to [drawFunction]. *)
Definition canvas_resolution (controls : Controls) : float :=
  let resolution := PrimFloat.abs (Js.StringToNumber (resolution controls)) in
  (* Resolution cannot be 0, leads to ZeroDivisionError *)
  if resolution =? 0 then 0x1.999999999999ap-5 else resolution.

End MainScript.

(** ** The main script: the handlers that edit the variable list *)

Module VariableList.
Import MainScript.

(** Add a new variable to variableList: the entry pushed has an empty
    name, the type "constant" and the value [new Complex(0, 0)] (its
    [min], [max] and [step] serve the slider only). *)
Definition addVariableElement (variableList : list VariableEntry)
    : list VariableEntry :=
  variableList ++ [mkVariable "" constant (mkComplex 0 0)].

(** Delete a variable from variableList: [variableList.splice(index, 1)],
    where [index] is the position of the list item that was clicked. *)
Definition deleteVariable (index : nat) (variableList : list VariableEntry)
    : list VariableEntry :=
  delete index variableList.

End VariableList.

(** ** The linear algebra of the main script (second copy) *)

Module LinearAlgebra.

Section Transpose.
Variable A : Type.
(** What reading past the end of a row yields. *)
Variable undefined : A.

(** [get transpose()]: [n] is the height [this.m], [m] the width [this.n],
    that is [this.matrix[0].length], which throws on a matrix without
    rows. *)
Definition transpose (matrix : list (list A)) : Outcome (list (list A)) :=
  match matrix with
  | [] => Throw TypeError
  | row0 :: _ =>
      let n := length matrix in
      let m := length row0 in
      Return (map (fun y =>
                map (fun x => nth y (nth x matrix []) undefined) (seq 0 n))
              (seq 0 m))
  end.

End Transpose.

(** Applies the transformation correspending to the matrix to a vector.
    An entry missing from a row reads [undefined], which the product turns
    into NaN. *)
Definition transformVector (matrix : list (list float)) (vector : list float)
    : list float :=
  match matrix with
  | [] => []
  | row0 :: _ =>
      map (fun i =>
        fold_left (fun acc j =>
                     acc + nth j (nth i matrix []) nan * nth j vector nan)
          (seq 0 (Nat.min (length vector) (length row0))) 0)
        (seq 0 (length matrix))
  end.

(** [vector[i]], with [if (isNaN(term)) term = 0]: a missing component and
    a NaN component both count as 0. *)
Definition term (vector : list float) (i : nat) : float :=
  match vector !! i with
  | Some x => if is_nan x then 0 else x
  | None => 0
  end.

Definition addition (vector1 vector2 : list float) : list float :=
  let length := Nat.max (length vector1) (length vector2) in
  map (fun i => term vector1 i + term vector2 i) (seq 0 length).

Definition subtraction (vector1 vector2 : list float) : list float :=
  let length := Nat.max (length vector1) (length vector2) in
  map (fun i => term vector1 i - term vector2 i) (seq 0 length).

Definition scalarMultiplication (vector : list float) (scalar : float)
    : list float :=
  map (fun x => x * scalar) vector.

End LinearAlgebra.


(** ** Notions used in the statements *)

(** [|z| = 0] of the number itself: both components are zeros.  The
    magnitude the code computes, [Complex.abs(z).re], is a different
    test: it is also 0 when the squares of the components underflow. *)
Definition magnitude_is_zero (z : Complex) : bool :=
  is_zero (re z) && is_zero (im z).

(** The entry a name resolves to. *)
Definition find_variable (variableList : list MainScript.VariableEntry)
    (line : string) : option MainScript.VariableEntry :=
  find (fun var => String.eqb (MainScript.name var) line) variableList.

(** The tokens the loop of [userFunction] passes over: empty once trimmed,
    or starting with "#". *)
Definition is_skipped (token : string) : bool :=
  String.eqb (Js.trim token) ""
  || MainScript.first_char_is (Js.trim token) "#".

(** [numbers.join("")] *)
Definition join (numbers : list string) : string :=
  fold_right String.append EmptyString numbers.

(** No sign after the first character. *)
Definition no_inner_sign (num : string) : bool :=
  forallb (fun i => negb (Js.includes_char "+-" (Js.at_index num i)))
    (seq 1 (String.length num - 1)).


(** [lines.join("\n")] *)
Fixpoint join_lines (lines : list string) : string :=
  match lines with
  | [] => EmptyString
  | [line] => line
  | line :: rest => String.append line (String "010" (join_lines rest))
  end.

(** * Properties *)

(** ** IEEE facts

    Each is read off the specification of the primitive operation
    ([FloatAxioms]) by cases on the class of the operands. *)

Ltac by_spec H :=
  apply Prim2SF_inj; exact (eq_trans H eq_refl).

Ltac not_finite_by H :=
  unfold not_finite;
  first [ left; by_spec H | right; left; by_spec H | right; right; by_spec H ].

Lemma mul_neg_infinity x : not_finite (x * neg_infinity).
Proof.
  pose proof (FloatAxioms.mul_spec x neg_infinity) as H.
  change (Prim2SF neg_infinity) with (S754_infinity true) in H.
  destruct (Prim2SF x) as [s|s| |s m e]; try destruct s; cbn in H;
    not_finite_by H.
Qed.

Lemma add_not_finite x y : not_finite x -> not_finite (x + y).
Proof.
  pose proof (FloatAxioms.add_spec x y) as H.
  intros [-> | [-> | ->]].
  - change (Prim2SF infinity) with (S754_infinity false) in H.
    destruct (Prim2SF y) as [s|s| |s m e]; try destruct s; cbn in H;
      not_finite_by H.
  - change (Prim2SF neg_infinity) with (S754_infinity true) in H.
    destruct (Prim2SF y) as [s|s| |s m e]; try destruct s; cbn in H;
      not_finite_by H.
  - change (Prim2SF nan) with S754_nan in H. cbn in H. not_finite_by H.
Qed.

Lemma mul_nan x : x * nan = nan.
Proof.
  apply Prim2SF_inj. rewrite FloatAxioms.mul_spec.
  change (Prim2SF nan) with S754_nan.
  destruct (Prim2SF x); reflexivity.
Qed.

Lemma is_zero_spec x :
  is_zero x = true <-> exists s, Prim2SF x = S754_zero s.
Proof.
  unfold is_zero. rewrite FloatAxioms.eqb_spec.
  change (Prim2SF zero) with (S754_zero false).
  destruct (Prim2SF x) as [s|s| |s m e]; cbn; split; intros H; eauto;
    try discriminate; try (destruct H; discriminate);
    destruct s; discriminate.
Qed.

Lemma is_zero_cases x : is_zero x = true -> x = 0 \/ x = neg_zero.
Proof.
  intros [s H]%is_zero_spec.
  destruct s; [right | left]; apply Prim2SF_inj; rewrite H; reflexivity.
Qed.

Lemma is_finite_spec x :
  is_finite x = true ->
  (exists s, Prim2SF x = S754_zero s) \/
  (exists s m e, Prim2SF x = S754_finite s m e).
Proof.
  unfold is_finite, is_nan, is_infinity.
  rewrite !FloatAxioms.eqb_spec, FloatAxioms.abs_spec.
  change (Prim2SF infinity) with (S754_infinity false).
  destruct (Prim2SF x) as [s|s| |s m e]; cbn; eauto 6.
  - rewrite orb_true_r. discriminate.
  - discriminate.
Qed.

Lemma mul_finite_zero x : is_finite x = true -> is_zero (x * 0) = true.
Proof.
  intros H. apply is_zero_spec. rewrite FloatAxioms.mul_spec.
  change (Prim2SF 0) with (S754_zero false).
  destruct (is_finite_spec x H) as [[s ->] | (s & m & e & ->)]; cbn; eauto.
Qed.

Lemma sub_zeros x y :
  is_zero x = true -> is_zero y = true -> is_zero (x - y) = true.
Proof.
  intros [sx Hx]%is_zero_spec [sy Hy]%is_zero_spec.
  apply is_zero_spec. rewrite FloatAxioms.sub_spec, Hx, Hy.
  destruct sx, sy; cbn; eauto.
Qed.

Lemma add_zeros x y :
  is_zero x = true -> is_zero y = true -> is_zero (x + y) = true.
Proof.
  intros [sx Hx]%is_zero_spec [sy Hy]%is_zero_spec.
  apply is_zero_spec. rewrite FloatAxioms.add_spec, Hx, Hy.
  destruct sx, sy; cbn; eauto.
Qed.

Lemma zero_is_not_nan : (0 : float) <> nan.
Proof. intros H. apply (f_equal is_nan) in H. discriminate H. Qed.

(** Rounding never produces NaN: the mantissa stays non-negative through
    the shifts and the rounding step. *)

Lemma shr_1_nonneg mrs : (0 <= shr_m mrs)%Z -> (0 <= shr_m (shr_1 mrs))%Z.
Proof.
  destruct mrs as [m r s]. simpl.
  destruct m as [|[p|p|]|p]; simpl; lia.
Qed.

Lemma iter_shr_1_nonneg p : forall mrs,
  (0 <= shr_m mrs)%Z -> (0 <= shr_m (SpecFloat.iter_pos shr_1 p mrs))%Z.
Proof.
  induction p as [p IH|p IH|]; intros mrs H; simpl.
  - apply IH, IH, shr_1_nonneg, H.
  - apply IH, IH, H.
  - apply shr_1_nonneg, H.
Qed.

Lemma shr_fexp_nonneg m e l :
  (0 <= m)%Z -> (0 <= shr_m (fst (shr_fexp prec emax m e l)))%Z.
Proof.
  intros H. unfold shr_fexp, shr.
  assert (Hm : (0 <= shr_m (shr_record_of_loc m l))%Z)
    by (destruct l as [|[]]; exact H).
  destruct (_ - e)%Z; simpl; auto using iter_shr_1_nonneg.
Qed.

Lemma round_nearest_even_nonneg m l :
  (0 <= m)%Z -> (0 <= round_nearest_even m l)%Z.
Proof.
  intros H. destruct l as [|[]]; simpl; try destruct (Z.even m); lia.
Qed.

Lemma binary_round_aux_not_nan sx mx ex lx :
  (0 <= mx)%Z -> binary_round_aux prec emax sx mx ex lx <> S754_nan.
Proof.
  intros H. unfold binary_round_aux.
  pose proof (shr_fexp_nonneg mx ex lx H) as H1.
  destruct (shr_fexp prec emax mx ex lx) as [mrs' e']. simpl in H1.
  pose proof (shr_fexp_nonneg _ e' loc_Exact
    (round_nearest_even_nonneg _ (loc_of_shr_record mrs') H1)) as H2.
  destruct (shr_fexp prec emax _ e' loc_Exact) as [mrs'' e'']. simpl in H2.
  destruct (shr_m mrs''); try lia; try discriminate.
  destruct (_ <=? _)%Z; discriminate.
Qed.

Lemma binary_normalize_not_nan m e sz :
  binary_normalize prec emax m e sz <> S754_nan.
Proof.
  unfold binary_normalize, binary_round.
  destruct m; [discriminate | |];
    destruct (shl_align _ _ _); apply binary_round_aux_not_nan; lia.
Qed.

(** [i <= Infinity] holds for every number [i] but NaN, *)
Lemma leb_infinity i : (i <=? infinity) = true <-> Prim2SF i <> S754_nan.
Proof.
  rewrite FloatAxioms.leb_spec.
  change (Prim2SF infinity) with (S754_infinity false).
  destruct (Prim2SF i) as [s|s| |s m e]; cbn; try destruct s;
    split; congruence.
Qed.

(** and [i++] never turns a number into NaN. *)
Lemma succ_not_nan i : Prim2SF i <> S754_nan -> Prim2SF (i + 1) <> S754_nan.
Proof.
  intros H. rewrite FloatAxioms.add_spec.
  change (Prim2SF 1) with (S754_finite false 4503599627370496 (-52)).
  destruct (Prim2SF i) as [s|s| |s m e]; cbn; try congruence.
  apply binary_normalize_not_nan.
Qed.

(** ** The arithmetic of [Complex] *)

Section ComplexFacts.
Context {M : MathLib}.

Lemma pow_zero_2 x : is_zero x = true -> pow x 2 = 0.
Proof.
  intros [-> | ->]%is_zero_cases; [apply pow_pos_zero_2 | apply pow_neg_zero_2].
Qed.

Lemma pow_zero_half x : is_zero x = true -> pow x 0.5 = 0.
Proof.
  intros [-> | ->]%is_zero_cases;
    [apply pow_pos_zero_half | apply pow_neg_zero_half].
Qed.

Lemma log_zero x : is_zero x = true -> log x = neg_infinity.
Proof.
  intros [-> | ->]%is_zero_cases; [apply log_pos_zero | apply log_neg_zero].
Qed.

Lemma cos_not_finite x : not_finite x -> cos x = nan.
Proof.
  intros [-> | [-> | ->]];
    [apply cos_infinity | apply cos_neg_infinity | apply cos_nan].
Qed.

Lemma sin_not_finite x : not_finite x -> sin x = nan.
Proof.
  intros [-> | [-> | ->]];
    [apply sin_infinity | apply sin_neg_infinity | apply sin_nan].
Qed.

(** The magnitude of [new Complex(-1)] is 1. *)
Lemma abs_minus_one : (re (Complex.abs (mkComplex (-1) 0)) =? 0) = false.
Proof.
  unfold Complex.abs, Complex.toPolar. simpl.
  rewrite pow_neg1_2, pow_pos_zero_2.
  change (1 + 0) with 1. rewrite pow_1_half. reflexivity.
Qed.

Lemma abs_origin : (re (Complex.abs (mkComplex 0 0)) =? 0) = true.
Proof.
  unfold Complex.abs, Complex.toPolar. simpl.
  rewrite pow_pos_zero_2.
  change (0 + 0) with 0. rewrite pow_pos_zero_half. reflexivity.
Qed.

Lemma fromPolar_not_finite r theta :
  not_finite theta -> Complex.fromPolar r theta = mkComplex nan nan.
Proof.
  intros H. unfold Complex.fromPolar.
  rewrite cos_not_finite, sin_not_finite by assumption.
  now rewrite mul_nan.
Qed.

Lemma raise_zero_to_minus_one b :
  (re (Complex.abs b) =? 0) = true ->
  Complex.raise b (mkComplex (-1) 0) = mkComplex 0 0.
Proof.
  intros Hb. unfold Complex.raise. now rewrite Hb, abs_minus_one.
Qed.

Lemma multiply_by_origin a :
  is_finite (re a) = true -> is_finite (im a) = true ->
  is_zero (re (Complex.multiply a (mkComplex 0 0))) = true
  /\ is_zero (im (Complex.multiply a (mkComplex 0 0))) = true.
Proof.
  intros Hr Hi. unfold Complex.multiply. simpl.
  split; [apply sub_zeros | apply add_zeros]; now apply mul_finite_zero.
Qed.

(** One divided by zero, whatever the [Math] object. *)
Lemma one_divided_by_zero :
  Complex.divide (mkComplex 1 0) (mkComplex 0 0) = mkComplex 0 0.
Proof.
  unfold Complex.divide.
  rewrite (raise_zero_to_minus_one _ abs_origin). reflexivity.
Qed.

(** C1, as the code has it: [divide(a, b)] is [multiply(a, raise(b, -1))];
    for [b] of magnitude zero the special case of [raise] makes
    [raise(b, -1)] exactly [Complex(0, 0)], so the quotient is
    [multiply(a, (0, 0))]: zero in both components when the components of
    [a] are finite, not [(NaN, NaN)]. *)
Theorem divide_by_zero_is_zero (a b : Complex) :
  (re (Complex.abs b) =? 0) = true ->
  Complex.divide a b = Complex.multiply a (Complex.raise b (mkComplex (-1) 0))
  /\ Complex.raise b (mkComplex (-1) 0) = mkComplex 0 0
  /\ (is_finite (re a) = true -> is_finite (im a) = true ->
      is_zero (re (Complex.divide a b)) = true
      /\ is_zero (im (Complex.divide a b)) = true).
Proof.
  intros Hb. split; [reflexivity |].
  split; [now apply raise_zero_to_minus_one |].
  intros Hr Hi. unfold Complex.divide.
  rewrite (raise_zero_to_minus_one _ Hb). now apply multiply_by_origin.
Qed.

(** The magnitude [Complex.abs] computes is zero as soon as the two
    squares are: for a zero, and for a number whose squares underflow. *)
Lemma abs_underflow z :
  is_zero (pow (re z) 2) = true -> is_zero (pow (im z) 2) = true ->
  (re (Complex.abs z) =? 0) = true.
Proof.
  intros Hr Hi. unfold Complex.abs, Complex.toPolar. simpl.
  now rewrite (pow_zero_half _ (add_zeros _ _ Hr Hi)).
Qed.

Lemma abs_of_zero z :
  magnitude_is_zero z = true -> (re (Complex.abs z) =? 0) = true.
Proof.
  intros [Hr Hi]%andb_true_iff.
  apply abs_underflow; rewrite pow_zero_2 by assumption; reflexivity.
Qed.

(** The polar path of [raise] for a base whose computed magnitude is
    zero: [log] of it is [-Infinity], the angle is infinite or NaN, and
    both components are NaN, whatever the exponent. *)
Lemma polar_path_zero_base b e :
  (re (Complex.abs b) =? 0) = true ->
  Complex.fromPolar
    (exp (re e * log (Complex.r (Complex.toPolar b))
          - im e * Complex.theta (Complex.toPolar b)))
    (im e * log (Complex.r (Complex.toPolar b))
     + re e * Complex.theta (Complex.toPolar b))
  = mkComplex nan nan.
Proof.
  intros Hb. unfold Complex.abs in Hb. simpl in *.
  rewrite (log_zero _ Hb).
  apply fromPolar_not_finite, add_not_finite, mul_neg_infinity.
Qed.

(** Zero raised to [2^-600], for every [Math] object that squares
    [2^-600] to zero (the exact square, [2^-1200], is below half the
    smallest positive number, [2^-1075]). *)
Lemma zero_to_tiny_power :
  is_zero (pow 0x1p-600 2) = true ->
  Complex.raise (mkComplex 0 0) (mkComplex 0x1p-600 0) = mkComplex nan nan.
Proof.
  intros Hsquare.
  assert (Hb : (re (Complex.abs (mkComplex 0 0)) =? 0) = true)
    by now apply abs_of_zero.
  assert (He : (re (Complex.abs (mkComplex 0x1p-600 0)) =? 0) = true).
  { apply abs_underflow; simpl; [exact Hsquare |].
    now rewrite pow_pos_zero_2. }
  unfold Complex.raise. rewrite Hb, He.
  now apply polar_path_zero_base.
Qed.

(** C6, as the code has it: for a base that is zero, [raise] returns
    exactly [Complex(0, 0)] when the magnitude it computes for the
    exponent, [Complex.abs(e).re], is not 0, and [(NaN, NaN)] when it is
    0.  The computed magnitude is 0 for every exponent whose squares are
    zero: for the zero exponent, and for a non-zero exponent so small
    that its squares underflow. *)
Theorem raise_zero_base (b e : Complex) :
  magnitude_is_zero b = true ->
  Complex.raise b e
  = (if re (Complex.abs e) =? 0 then mkComplex nan nan else mkComplex 0 0)
  /\ (is_zero (pow (re e) 2) = true -> is_zero (pow (im e) 2) = true ->
      Complex.raise b e = mkComplex nan nan).
Proof.
  intros Hb%abs_of_zero.
  assert (Hraise : Complex.raise b e
                   = if re (Complex.abs e) =? 0 then mkComplex nan nan
                     else mkComplex 0 0).
  { unfold Complex.raise. rewrite Hb.
    destruct (re (Complex.abs e) =? 0); simpl;
      [now apply polar_path_zero_base | reflexivity]. }
  split; [exact Hraise |].
  intros Hr Hi. now rewrite Hraise, (abs_underflow _ Hr Hi).
Qed.

(** C10: when base and exponent both have magnitude zero the special
    case does not apply, the polar path meets [log 0 = -Infinity], and
    [raise] returns [(NaN, NaN)]. *)
Theorem raise_zero_zero (b e : Complex) :
  (re (Complex.abs b) =? 0) = true ->
  (re (Complex.abs e) =? 0) = true ->
  Complex.raise b e = mkComplex nan nan.
Proof.
  intros Hb He. unfold Complex.raise. rewrite Hb, He. simpl.
  unfold Complex.abs in Hb. simpl in Hb.
  rewrite (log_zero _ Hb).
  apply fromPolar_not_finite, add_not_finite, mul_neg_infinity.
Qed.

End ComplexFacts.

(** C1 at [a = 1], [b = 0]. *)
Lemma divide_by_zero_is_zero_witness :
  (re (Complex.abs (M := coarse_math) (mkComplex 0 0)) =? 0) = true
  /\ Complex.divide (M := coarse_math) (mkComplex 1 0) (mkComplex 0 0)
     = Complex.multiply (mkComplex 1 0)
         (Complex.raise (M := coarse_math) (mkComplex 0 0) (mkComplex (-1) 0))
  /\ Complex.raise (M := coarse_math) (mkComplex 0 0) (mkComplex (-1) 0)
     = mkComplex 0 0
  /\ (is_finite 1 = true -> is_finite 0 = true ->
      is_zero (re (Complex.divide (M := coarse_math)
                     (mkComplex 1 0) (mkComplex 0 0))) = true
      /\ is_zero (im (Complex.divide (M := coarse_math)
                        (mkComplex 1 0) (mkComplex 0 0))) = true).
Proof.
  split; [reflexivity |].
  apply (divide_by_zero_is_zero (M := coarse_math)
           (mkComplex 1 0) (mkComplex 0 0)).
  reflexivity.
Defined.

(** C1 as the specification states it fails: one divided by zero is
    [(0, 0)], not [(NaN, NaN)]. *)
Lemma divide_by_zero_not_nan :
  ~ (forall (M : MathLib) (a b : Complex),
       (re (Complex.abs b) =? 0) = true ->
       Complex.divide a b
       = Complex.multiply a (Complex.raise b (mkComplex (-1) 0))
       /\ Complex.divide a b = mkComplex nan nan).
Proof.
  intros H.
  destruct (H coarse_math (mkComplex 1 0) (mkComplex 0 0) eq_refl)
    as [_ Hnan].
  rewrite (one_divided_by_zero (M := coarse_math)) in Hnan.
  apply (f_equal re) in Hnan. exact (zero_is_not_nan Hnan).
Qed.

(** C6 at the origin raised to the power one. *)
Lemma raise_zero_base_witness :
  magnitude_is_zero (mkComplex 0 0) = true
  /\ Complex.raise (M := coarse_math) (mkComplex 0 0) (mkComplex 1 0)
     = mkComplex 0 0.
Proof.
  split; [reflexivity |].
  exact (proj1 (raise_zero_base (M := coarse_math)
                  (mkComplex 0 0) (mkComplex 1 0) eq_refl)).
Defined.

(** C6 as the specification states it fails: [2^-600] is not zero, yet
    zero raised to it is [(NaN, NaN)], not [(0, 0)]. *)
Lemma raise_zero_base_not_always_zero :
  ~ (forall (M : MathLib) (b e : Complex),
       magnitude_is_zero b = true ->
       magnitude_is_zero e = false ->
       Complex.raise b e = mkComplex 0 0).
Proof.
  intros H.
  pose proof (H coarse_math (mkComplex 0 0) (mkComplex 0x1p-600 0)
                eq_refl eq_refl) as Hzero.
  rewrite (zero_to_tiny_power (M := coarse_math) eq_refl) in Hzero.
  apply (f_equal re) in Hzero. exact (zero_is_not_nan (eq_sym Hzero)).
Qed.

(** C10 at zero raised to zero. *)
Lemma raise_zero_zero_witness :
  (re (Complex.abs (M := coarse_math) (mkComplex 0 0)) =? 0) = true
  /\ Complex.raise (M := coarse_math) (mkComplex 0 0) (mkComplex 0 0)
     = mkComplex nan nan.
Proof.
  split; [reflexivity |]. apply raise_zero_zero; reflexivity.
Defined.

(** ** The literal parsers *)

(** C7, as the code has it: the sign-splitting [parseNumber] of script.js
    maps the four literals as the specification says; the single-token
    [parseNumber] of the main script agrees on "3i" and "i" but hands
    "-" and "4-3" to [Number] and yields [Complex(0, NaN)] for "-i" and
    "4-3i". *)
Theorem parseNumber_literals :
  ScriptJs.parseNumber "3i" = mkComplex 0 3
  /\ ScriptJs.parseNumber "i" = mkComplex 0 1
  /\ ScriptJs.parseNumber "-i" = mkComplex 0 (-1)
  /\ ScriptJs.parseNumber "4-3i" = mkComplex 4 (-3)
  /\ MainScript.parseNumber "3i" = mkComplex 0 3
  /\ MainScript.parseNumber "i" = mkComplex 0 1
  /\ MainScript.parseNumber "-i" = mkComplex 0 nan
  /\ MainScript.parseNumber "4-3i" = mkComplex 0 nan.
Proof. repeat split; vm_compute; reflexivity. Qed.

(** C7 fails for the [parseNumber] of the main script: "-i" does not give
    [Complex(0, -1)]. *)
Lemma main_parseNumber_minus_i :
  MainScript.parseNumber "-i" <> mkComplex 0 (-1).
Proof.
  intros H. apply (f_equal (fun c => is_nan (im c))) in H.
  vm_compute in H. discriminate H.
Qed.

(** ** The interpreter, one token at a time *)

Import MainScript.

Lemma substring_all s : String.substring 0 (String.length s) s = s.
Proof. induction s as [|c s IH]; simpl; [reflexivity | now rewrite IH]. Qed.

(** The name bound by the line "=" followed by [rest]. *)
Lemma assigned_name_cons c rest :
  assigned_name (String c rest) = Js.trim rest.
Proof.
  unfold assigned_name, Js.substring. simpl.
  now rewrite Nat.sub_0_r, substring_all.
Qed.

Lemma slice_app (A : Type) (rest values : list A) :
  slice (rest ++ values)
    (Z.of_nat (length (rest ++ values)) - Z.of_nat (length values)) = values.
Proof.
  unfold slice. rewrite length_app.
  replace (Z.of_nat (length rest + length values) - Z.of_nat (length values))%Z
    with (Z.of_nat (length rest)) by lia.
  destruct (Z.ltb_spec (Z.of_nat (length rest)) 0); [lia|].
  rewrite Z.min_l by lia. rewrite Nat2Z.id.
  now rewrite drop_app_length.
Qed.

Lemma pop_snoc stack v : pop (stack ++ [v]) = (v, stack).
Proof. unfold pop. now rewrite last_snoc, removelast_last. Qed.

Lemma getVariableIndex_from_lookup l line : forall i j,
  getVariableIndex_from i l line = Some j ->
  exists var, l !! (j - i)%nat = Some var /\ name var = line /\ (i <= j)%nat.
Proof.
  induction l as [|v l IH]; intros i j H; simpl in H; [discriminate|].
  destruct (String.eqb_spec (name v) line) as [Heq | Hne].
  - injection H as <-. exists v. rewrite Nat.sub_diag. auto.
  - destruct (IH _ _ H) as (var & Hl & Hn & Hle).
    exists var. replace (j - i)%nat with (S (j - S i)) by lia.
    simpl. repeat split; auto; lia.
Qed.

Lemma getVariableIndex_lookup variableList line i :
  getVariableIndex variableList line = Some i ->
  exists var, variableList !! i = Some var /\ name var = line.
Proof.
  intros H. destruct (getVariableIndex_from_lookup _ _ _ _ H)
    as (var & Hl & Hn & _).
  rewrite Nat.sub_0_r in Hl. eauto.
Qed.

(** A missing second operand is [undefined]: reading its [constructor]
    throws. *)
Lemma binary_one_operand (f : Complex -> Complex -> Complex) a :
  Complex.binary f [a] = Throw TypeError.
Proof. unfold Complex.binary. destruct a; reflexivity. Qed.

Lemma set_property_plain vars key v :
  key <> "__proto__" -> set_property vars key v = Return (<[key := v]> vars).
Proof.
  intros H. unfold set_property.
  destruct (String.eqb_spec key "__proto__"); [contradiction | reflexivity].
Qed.

Section InterpreterFacts.
Context {M : MathLib}.
Variable variableList : list VariableEntry.
Variable num : Value.

Lemma operations_symbol line op :
  operations line = Some op -> In line operator_symbols.
Proof.
  unfold operations, operator_symbols.
  repeat match goal with
  | |- context [if String.eqb line ?s then _ else _] =>
      destruct (String.eqb_spec line s) as [-> | _]; [intros _; simpl; tauto |]
  end.
  destruct (existsb _ _) eqn:E; [|discriminate].
  intros _. apply existsb_exists in E as (x & Hx & Heq).
  apply String.eqb_eq in Heq. subst x. simpl in *. tauto.
Qed.

(** The second branch: an operator symbol. *)
Lemma evalLine_operator st token op :
  operations (Js.trim token) = Some op ->
  evalLine variableList num st token = apply_operation op st.
Proof.
  unfold evalLine. generalize (Js.trim token). intros line H.
  pose proof (operations_symbol _ _ H) as Hin.
  simpl in Hin.
  repeat (destruct Hin as [<- | Hin];
          [cbn in H; injection H as <-; reflexivity |]).
  destruct Hin.
Qed.

Lemma apply_operation_enough st op rest values v :
  functionStack st = rest ++ values ->
  length values = args op ->
  function op values = Return v ->
  apply_operation op st = Return (mkState (calculatedVars st) (rest ++ [v])).
Proof.
  intros Hst Hlen Hf. unfold apply_operation. rewrite Hst, <- Hlen.
  rewrite slice_app, Hf. simpl.
  rewrite length_app.
  destruct (Z.ltb_spec
    (Z.of_nat (length rest + length values) - Z.of_nat (length values)) 0);
    [lia|].
  replace (length rest + length values - length values)%nat
    with (length rest) by lia.
  now rewrite take_app_length.
Qed.

Lemma apply_operation_underflow st line op :
  In line script_symbols ->
  operations line = Some op ->
  (length (functionStack st) < args op)%nat ->
  apply_operation op st = Throw TypeError.
Proof.
  intros Hin Hop Hlen. unfold apply_operation.
  simpl in Hin.
  repeat (destruct Hin as [<- | Hin];
    [ cbn in Hop; injection Hop as <-; cbn in Hlen |- *;
      destruct (functionStack st) as [|a [|b l]]; simpl in Hlen;
      try lia; try reflexivity; try apply binary_one_operand;
      destruct a; reflexivity |]).
  destruct Hin.
Qed.

(** The last three branches: a name. *)
Lemma evalLine_name st token :
  is_name token = true ->
  evalLine variableList num st token =
  match getVariableIndex variableList (Js.trim token) with
  | Some i =>
      match variableList !! i with
      | Some v => Return (push (VComplex (value v)) st)
      | None => Throw TypeError
      end
  | None =>
      if has_property (calculatedVars st) (Js.trim token) then
        Return (push (get_property (calculatedVars st)
                        (Js.trim (Js.trim token))) st)
      else Return (push (VComplex (parseNumber (Js.trim token))) st)
  end.
Proof.
  unfold is_name, evalLine. generalize (Js.trim token). intros line.
  rewrite !andb_true_iff, !negb_true_iff.
  intros [[[[Hx He] Hc] Ha] Ho].
  rewrite Hx, He, Hc, Ha. simpl.
  destruct (operations line); [discriminate | reflexivity].
Qed.

Lemma evalLine_calculated st token v :
  is_name token = true ->
  Js.trim (Js.trim token) = Js.trim token ->
  getVariableIndex variableList (Js.trim token) = None ->
  calculatedVars st !! Js.trim token = Some v ->
  evalLine variableList num st token = Return (push v st).
Proof.
  intros Hname Ht Hidx Hv. rewrite (evalLine_name _ _ Hname), Hidx, Ht.
  unfold has_property, get_property. now rewrite Hv.
Qed.

(** The first branch: a line that starts with "=". *)
Lemma evalLine_assign st token :
  first_char_is (Js.trim token) "=" = true ->
  evalLine variableList num st token = assign (Js.trim token) st.
Proof.
  unfold evalLine. generalize (Js.trim token). intros line H.
  destruct line as [|c rest]; [discriminate H |].
  unfold first_char_is in *. simpl in H |- *.
  apply Ascii.eqb_eq in H. subst c.
  destruct rest; reflexivity.
Qed.

(** C2, as the code has it: a name bound both in the Variable Registry
    and in the CalculatedVariable map resolves to the Registry entry (the
    first one of that name): the Registry is consulted before the
    CalculatedVariable map. *)
Theorem registry_shadows_calculated st token i w :
  is_name token = true ->
  getVariableIndex variableList (Js.trim token) = Some i ->
  calculatedVars st !! Js.trim token = Some w ->
  exists var, variableList !! i = Some var /\ name var = Js.trim token
    /\ evalLine variableList num st token
       = Return (push (VComplex (value var)) st).
Proof.
  intros Hname Hidx _.
  destruct (getVariableIndex_lookup _ _ _ Hidx) as (var & Hl & Hn).
  exists var. repeat split; auto.
  now rewrite (evalLine_name _ _ Hname), Hidx, Hl.
Qed.

(** C3, as the code has it: an Assign token never fails.  On an empty
    stack [pop] yields [undefined], which is bound under the name while
    the stack stays empty; on a non-empty stack exactly the top value is
    popped and bound, replacing any earlier binding of the name.  (The key
    [__proto__] is the one name that is not bound this way.) *)
Theorem assign_pops_and_binds st token :
  first_char_is (Js.trim token) "=" = true ->
  assigned_name (Js.trim token) <> "__proto__" ->
  (functionStack st = [] ->
     evalLine variableList num st token
     = Return (mkState (<[assigned_name (Js.trim token) := VUndefined]>
                          (calculatedVars st)) []))
  /\ (forall stack v, functionStack st = stack ++ [v] ->
     evalLine variableList num st token
     = Return (mkState (<[assigned_name (Js.trim token) := v]>
                          (calculatedVars st)) stack)).
Proof.
  intros Ht Hkey. rewrite (evalLine_assign _ _ Ht). unfold assign. split.
  - intros Hst. rewrite Hst. simpl. now rewrite set_property_plain.
  - intros stack v Hst. rewrite Hst, pop_snoc.
    now rewrite set_property_plain.
Qed.

(** C4, as the code has it: with fewer values on the stack than the
    arity, an operator of script.js fails, with the TypeError raised when
    the [Complex] method reads its missing operand; there is no
    StackUnderflow error.  With enough values, the top [k] are passed in
    stack order, and are replaced by the one result. *)
Theorem operator_token_step st token op :
  operations (Js.trim token) = Some op ->
  ((length (functionStack st) < args op)%nat ->
     In (Js.trim token) script_symbols ->
     evalLine variableList num st token = Throw TypeError)
  /\ (forall rest values v,
       functionStack st = rest ++ values ->
       length values = args op ->
       function op values = Return v ->
       evalLine variableList num st token
       = Return (mkState (calculatedVars st) (rest ++ [v]))).
Proof.
  intros Hop. rewrite (evalLine_operator _ _ _ Hop). split.
  - intros Hlen Hin. now apply (apply_operation_underflow _ (Js.trim token)).
  - intros rest values v. apply apply_operation_enough.
Qed.

(** C5, as the code has it: a name found neither in the Variable Registry
    nor in the CalculatedVariable map does not fail: the interpreter pushes
    [parseNumber(name)], which is [Complex(NaN, 0)] when the name does not
    end in "i" and is not a numeric literal. *)
Theorem unknown_identifier_is_parsed st token :
  is_name token = true ->
  getVariableIndex variableList (Js.trim token) = None ->
  has_property (calculatedVars st) (Js.trim token) = false ->
  evalLine variableList num st token
  = Return (push (VComplex (parseNumber (Js.trim token))) st)
  /\ (Js.char_is (Js.last_char (Js.trim token)) "i" = false ->
      Js.StringToNumber (Js.trim token) = nan ->
      parseNumber (Js.trim token) = mkComplex nan 0).
Proof.
  intros Hname Hidx Hcalc. split.
  - now rewrite (evalLine_name _ _ Hname), Hidx, Hcalc.
  - intros Hi Hnan. unfold parseNumber. now rewrite Hi, Hnan.
Qed.

End InterpreterFacts.

#[local] Arguments evalLine : simpl never.

(** C8: the tokens "x", "=a", "a", "a", "*" at [x = 5], without a variable
    named "a", leave exactly [Complex(25, 0)] on the stack. *)
Theorem assignment_then_reuse {M : MathLib}
    (variableList : list VariableEntry) :
  getVariableIndex variableList "a" = None ->
  run variableList (VComplex (mkComplex 5 0)) ["x"; "=a"; "a"; "a"; "*"]
  = Return [VComplex (mkComplex 25 0)].
Proof.
  intros Ha. unfold run. cbn [evalLines].
  assert (Hx : evalLine variableList (VComplex (mkComplex 5 0)) initial "x"
               = Return (push (VComplex (mkComplex 5 0)) initial))
    by reflexivity.
  rewrite Hx. cbn [bind].
  rewrite evalLine_assign by reflexivity. cbn.
  rewrite (evalLine_calculated _ _ _ "a" (VComplex (mkComplex 5 0)))
    by (first [reflexivity | exact Ha | apply lookup_insert_eq]).
  cbn [bind].
  rewrite (evalLine_calculated _ _ _ "a" (VComplex (mkComplex 5 0)))
    by (first [reflexivity | exact Ha | apply lookup_insert_eq]).
  cbn [bind].
  erewrite evalLine_operator by reflexivity.
  reflexivity.
Qed.

(** *** Instances on the default variable list *)

(** C2 with "e" bound to 5 by an assignment and to [Math.E] in the
    Registry. *)
Lemma registry_shadows_calculated_witness :
  is_name (M := coarse_math) "e" = true
  /\ getVariableIndex defaultVariableList (Js.trim "e") = Some 1%nat
  /\ (<["e" := VComplex (mkComplex 5 0)]> (∅ : gmap string Value))
       !! Js.trim "e"
     = Some (VComplex (mkComplex 5 0))
  /\ exists var, defaultVariableList !! 1%nat = Some var
     /\ name var = Js.trim "e"
     /\ evalLine (M := coarse_math) defaultVariableList (VNum 5)
          (mkState (<["e" := VComplex (mkComplex 5 0)]> ∅) []) "e"
        = Return (push (VComplex (value var))
                    (mkState (<["e" := VComplex (mkComplex 5 0)]> ∅) [])).
Proof.
  split; [reflexivity |]. split; [reflexivity |].
  split; [apply lookup_insert_eq |].
  apply (registry_shadows_calculated (M := coarse_math) defaultVariableList
           (VNum 5) (mkState (<["e" := VComplex (mkComplex 5 0)]> ∅) [])
           "e" 1%nat (VComplex (mkComplex 5 0)));
    [reflexivity | reflexivity | apply lookup_insert_eq].
Defined.

(** C2 as the specification states it fails: after "x", "=e" at [x = 5]
    the token "e" pushes [Math.E] from the Registry, not the 5 bound by
    the assignment. *)
Lemma calculated_not_first :
  run (M := coarse_math) defaultVariableList (VComplex (mkComplex 5 0))
    ["x"; "=e"; "e"]
  = Return [VComplex (mkComplex E 0)]
  /\ run (M := coarse_math) defaultVariableList (VComplex (mkComplex 5 0))
       ["x"; "=e"; "e"]
     <> Return [VComplex (mkComplex 5 0)].
Proof.
  assert (H : run (M := coarse_math) defaultVariableList
                (VComplex (mkComplex 5 0)) ["x"; "=e"; "e"]
              = Return [VComplex (mkComplex E 0)])
    by (vm_compute; reflexivity).
  split; [exact H |]. rewrite H. intros Heq.
  apply (f_equal (fun o => match o with
                           | Return [VComplex c] => re c =? 5
                           | _ => false
                           end)) in Heq.
  vm_compute in Heq. discriminate Heq.
Qed.

(** C3 on the stack [1, 2] and the token "=a". *)
Lemma assign_pops_and_binds_witness :
  first_char_is (Js.trim "=a") "=" = true
  /\ assigned_name (Js.trim "=a") <> "__proto__"
  /\ evalLine (M := coarse_math) defaultVariableList (VNum 5)
       (mkState ∅ [VNum 1; VNum 2]) "=a"
     = Return (mkState (<["a" := VNum 2]> ∅) [VNum 1]).
Proof.
  split; [reflexivity |]. split; [discriminate |].
  apply (proj2 (assign_pops_and_binds (M := coarse_math) defaultVariableList
                  (VNum 5) (mkState ∅ [VNum 1; VNum 2]) "=a"
                  eq_refl ltac:(discriminate)) [VNum 1] (VNum 2)).
  reflexivity.
Defined.

(** C3 as the specification states it fails: on the empty stack "=a"
    returns, with "a" bound to [undefined]; nothing is thrown. *)
Lemma assign_on_empty_stack_returns :
  evalLine (M := coarse_math) defaultVariableList (VNum 5) initial "=a"
  = Return (mkState (<["a" := VUndefined]> ∅) [])
  /\ evalLine (M := coarse_math) defaultVariableList (VNum 5) initial "=a"
     <> Throw StackUnderflow.
Proof.
  assert (H : evalLine (M := coarse_math) defaultVariableList (VNum 5)
                initial "=a"
              = Return (mkState (<["a" := VUndefined]> ∅) []))
    by reflexivity.
  split; [exact H |]. rewrite H. discriminate.
Qed.

(** C4 on the token "-": the empty stack gives a TypeError, the stack
    [1, 5, 3] becomes [1, 5 - 3]. *)
Lemma operator_token_step_witness :
  operations (M := coarse_math) (Js.trim "-")
  = Some (mkOperation 2 (Complex.binary Complex.subtract))
  /\ evalLine (M := coarse_math) defaultVariableList (VNum 5) initial "-"
     = Throw TypeError
  /\ evalLine (M := coarse_math) defaultVariableList (VNum 5)
       (mkState ∅ [VNum 1; VComplex (mkComplex 5 0); VComplex (mkComplex 3 0)])
       "-"
     = Return (mkState ∅ [VNum 1; VComplex (mkComplex 2 0)]).
Proof.
  split; [reflexivity |]. split.
  - apply (proj1 (operator_token_step (M := coarse_math) defaultVariableList
                    (VNum 5) initial "-" _ eq_refl)).
    + simpl. lia.
    + simpl. tauto.
  - apply (proj2 (operator_token_step (M := coarse_math) defaultVariableList
                    (VNum 5)
                    (mkState ∅ [VNum 1; VComplex (mkComplex 5 0);
                                VComplex (mkComplex 3 0)])
                    "-" _ eq_refl)
             [VNum 1] [VComplex (mkComplex 5 0); VComplex (mkComplex 3 0)]
             (VComplex (mkComplex 2 0)));
      reflexivity.
Defined.

(** C4 as the specification states it fails: the program ["+"] ends with
    a TypeError, not with StackUnderflow. *)
Lemma plus_on_empty_stack_type_error :
  run (M := coarse_math) defaultVariableList (VComplex (mkComplex 5 0)) ["+"]
  = Throw TypeError
  /\ run (M := coarse_math) defaultVariableList (VComplex (mkComplex 5 0))
       ["+"]
     <> Throw StackUnderflow.
Proof.
  assert (H : run (M := coarse_math) defaultVariableList
                (VComplex (mkComplex 5 0)) ["+"] = Throw TypeError)
    by reflexivity.
  split; [exact H |]. rewrite H. discriminate.
Qed.

(** C5 on the token "foo". *)
Lemma unknown_identifier_is_parsed_witness :
  is_name (M := coarse_math) "foo" = true
  /\ getVariableIndex defaultVariableList (Js.trim "foo") = None
  /\ has_property (calculatedVars initial) (Js.trim "foo") = false
  /\ evalLine (M := coarse_math) defaultVariableList (VNum 5) initial "foo"
     = Return (push (VComplex (parseNumber (Js.trim "foo"))) initial)
  /\ (Js.char_is (Js.last_char (Js.trim "foo")) "i" = false ->
      Js.StringToNumber (Js.trim "foo") = nan ->
      parseNumber (Js.trim "foo") = mkComplex nan 0).
Proof.
  split; [reflexivity |]. split; [reflexivity |]. split; [reflexivity |].
  apply (unknown_identifier_is_parsed (M := coarse_math) defaultVariableList
           (VNum 5) initial "foo"); reflexivity.
Defined.

(** C5 as the specification states it fails: the program ["foo"] returns
    [Complex(NaN, 0)]; no UnknownIdentifier is raised. *)
Lemma foo_pushes_nan :
  run (M := coarse_math) defaultVariableList (VComplex (mkComplex 5 0))
    ["foo"]
  = Return [VComplex (mkComplex nan 0)]
  /\ run (M := coarse_math) defaultVariableList (VComplex (mkComplex 5 0))
       ["foo"]
     <> Throw (UnknownIdentifier "foo").
Proof.
  assert (H : run (M := coarse_math) defaultVariableList
                (VComplex (mkComplex 5 0)) ["foo"]
              = Return [VComplex (mkComplex nan 0)])
    by (vm_compute; reflexivity).
  split; [exact H |]. rewrite H. discriminate.
Qed.

(** C8 on the default variable list. *)
Lemma assignment_then_reuse_witness :
  getVariableIndex defaultVariableList "a" = None
  /\ run (M := coarse_math) defaultVariableList (VComplex (mkComplex 5 0))
       ["x"; "=a"; "a"; "a"; "*"]
     = Return [VComplex (mkComplex 25 0)].
Proof.
  split; [reflexivity |].
  apply (assignment_then_reuse (M := coarse_math) defaultVariableList).
  reflexivity.
Defined.

(** ** The evaluation batch *)

Section BatchFacts.
Variable R : Type.
Variable func : Value -> Outcome R.

(** While the bound of the loop is [+Infinity] and the counter is a
    number, the loop cannot end normally, whatever the fuel. *)
Lemma sample_loop_unbounded begin end_ step l :
  (end_ - begin) / step = infinity ->
  forall fuel i resultList,
    Prim2SF i <> S754_nan ->
    sample_loop R func fuel begin end_ step i resultList <> Some (Return l).
Proof.
  intros Hbound. induction fuel as [|fuel IH]; intros i resultList Hi; simpl.
  - discriminate.
  - rewrite Hbound. rewrite (proj2 (leb_infinity i) Hi).
    destruct (func _); try discriminate.
    apply IH, succ_not_nan, Hi.
Qed.

(** C9 at the inputs [-2], [2] and resolution [0]: [updateFunctionValues]
    takes the step [|0| = 0] as it is, the bound [(2 - -2) / 0] is
    [+Infinity], and no amount of fuel lets the loop deliver a result
    list. *)
Theorem zero_step_never_finishes (fuel : nat) (l : list R) :
  updateFunctionValues R func fuel (mkControls "-2" "2" "0")
  <> Some (Return l).
Proof.
  unfold updateFunctionValues.
  apply sample_loop_unbounded; [vm_compute; reflexivity |].
  vm_compute. discriminate.
Qed.

(** When [func] returns on every sample, the fuel always runs out. *)
Lemma sample_loop_out_of_fuel begin end_ step :
  (end_ - begin) / step = infinity ->
  (forall v, exists result, func v = Return result) ->
  forall fuel i resultList,
    Prim2SF i <> S754_nan ->
    sample_loop R func fuel begin end_ step i resultList = None.
Proof.
  intros Hbound Hfunc.
  induction fuel as [|fuel IH]; intros i resultList Hi; simpl;
    [reflexivity |].
  rewrite Hbound, (proj2 (leb_infinity i) Hi).
  destruct (Hfunc (VComplex (mkComplex (i * step + begin) 0)))
    as [result ->].
  apply IH, succ_not_nan, Hi.
Qed.

Corollary zero_step_runs_out_of_fuel (fuel : nat) :
  (forall v, exists result, func v = Return result) ->
  updateFunctionValues R func fuel (mkControls "-2" "2" "0") = None.
Proof.
  intros Hfunc. unfold updateFunctionValues.
  apply sample_loop_out_of_fuel;
    [vm_compute; reflexivity | exact Hfunc | vm_compute; discriminate].
Qed.

End BatchFacts.

(** For the same inputs [updateCanvas] replaces the zero by 0.05. *)
Example canvas_resolution_zero :
  canvas_resolution (mkControls "-2" "2" "0") = 0x1.999999999999ap-5.
Proof. vm_compute. reflexivity. Qed.

(** A negative resolution is taken by its absolute value, and the default
    inputs give the 81 samples 0 .. 80. *)
Example default_batch :
  option_map (fun o => match o with Return l => length l | _ => 0%nat end)
    (updateFunctionValues Value Return 100 (mkControls "-2" "2" "-0.05"))
  = Some 81%nat.
Proof. vm_compute. reflexivity. Qed.

(** * Further properties of the code *)

(** ** Exact laws of the IEEE operations *)

Lemma SFadd_comm x y : SF64add x y = SF64add y x.
Proof.
  unfold SF64add, SFadd.
  destruct x as [sx|sx| |sx mx ex], y as [sy|sy| |sy my ey];
    try reflexivity; try (destruct sx, sy; reflexivity).
  now rewrite Z.min_comm, Z.add_comm.
Qed.

Lemma SFmul_comm x y : SF64mul x y = SF64mul y x.
Proof.
  unfold SF64mul, SFmul.
  destruct x as [sx|sx| |sx mx ex], y as [sy|sy| |sy my ey];
    try reflexivity; try (now rewrite xorb_comm).
  now rewrite xorb_comm, Pos.mul_comm, Z.add_comm.
Qed.

Lemma float_add_comm (x y : float) : x + y = y + x.
Proof.
  apply Prim2SF_inj. rewrite !FloatAxioms.add_spec. apply SFadd_comm.
Qed.

Lemma float_mul_comm (x y : float) : x * y = y * x.
Proof.
  apply Prim2SF_inj. rewrite !FloatAxioms.mul_spec. apply SFmul_comm.
Qed.

(** X1: [Complex.add] gives the same result, or the same TypeError,
    whatever the order of its two arguments. *)
Theorem complex_add_comm (num1 num2 : Value) :
  Complex.binary Complex.add [num1; num2]
  = Complex.binary Complex.add [num2; num1].
Proof.
  assert (H : forall a b, Complex.add a b = Complex.add b a).
  { intros a b. unfold Complex.add.
    now rewrite (float_add_comm (re a)), (float_add_comm (im a)). }
  unfold Complex.binary.
  destruct num1, num2; simpl; try reflexivity; now rewrite H.
Qed.

(** X2: so does [Complex.multiply]. *)
Theorem complex_multiply_comm (in1 in2 : Value) :
  Complex.binary Complex.multiply [in1; in2]
  = Complex.binary Complex.multiply [in2; in1].
Proof.
  assert (H : forall a b, Complex.multiply a b = Complex.multiply b a).
  { intros a b. unfold Complex.multiply. cbn zeta.
    rewrite (float_mul_comm (re a) (re b)), (float_mul_comm (im a) (im b)).
    rewrite (float_mul_comm (im a) (re b)), (float_mul_comm (re a) (im b)).
    now rewrite (float_add_comm (re b * im a)). }
  unfold Complex.binary.
  destruct in1, in2; simpl; try reflexivity; now rewrite H.
Qed.

(** ** The variable list *)

Lemma getVariableIndex_from_spec l line : forall k,
  match getVariableIndex_from k l line with
  | Some i =>
      (k <= i)%nat
      /\ (exists var, l !! (i - k)%nat = Some var /\ name var = line)
      /\ (forall j var, (j < i - k)%nat -> l !! j = Some var ->
                        name var <> line)
  | None => Forall (fun var => name var <> line) l
  end.
Proof.
  induction l as [|v l IH]; intros k; simpl; [constructor |].
  destruct (String.eqb_spec (name v) line) as [Heq | Hne].
  - split; [lia |]. rewrite Nat.sub_diag. split; [eauto | intros; lia].
  - specialize (IH (S k)).
    destruct (getVariableIndex_from (S k) l line) as [i|].
    + destruct IH as (Hle & (var & Hl & Hn) & Hmin).
      split; [lia |]. replace (i - k)%nat with (S (i - S k)) by lia.
      split; [exists var; auto |].
      intros [|j] w Hj Hw; simpl in Hw.
      * now injection Hw as <-.
      * apply (Hmin j); [lia | exact Hw].
    + now constructor.
Qed.

(** X3: [getVariableIndex] returns the position of the first entry with
    the given name, so an entry hides any later entry of the same name,
    and it returns -1 exactly when no entry has the name. *)
Theorem getVariableIndex_first_match (variableList : list VariableEntry)
    (line : string) :
  match getVariableIndex variableList line with
  | Some i =>
      (exists var, variableList !! i = Some var /\ name var = line)
      /\ (forall j var, (j < i)%nat -> variableList !! j = Some var ->
                        name var <> line)
  | None => Forall (fun var => name var <> line) variableList
  end.
Proof.
  unfold getVariableIndex.
  pose proof (getVariableIndex_from_spec variableList line 0) as H.
  destruct (getVariableIndex_from 0 variableList line) as [i|]; [| exact H].
  rewrite Nat.sub_0_r in H. tauto.
Qed.

Lemma getVariableIndex_from_find l line : forall k,
  match getVariableIndex_from k l line with
  | Some i => l !! (i - k)%nat = find_variable l line /\ (k <= i)%nat
              /\ find_variable l line <> None
  | None => find_variable l line = None
  end.
Proof.
  unfold find_variable.
  induction l as [|v l IH]; intros k; simpl; [reflexivity |].
  destruct (String.eqb (name v) line).
  - rewrite Nat.sub_diag. repeat split; auto; discriminate.
  - specialize (IH (S k)).
    destruct (getVariableIndex_from (S k) l line) as [i|]; [| exact IH].
    destruct IH as (Hl & Hle & Hn). repeat split; [| lia | exact Hn].
    replace (i - k)%nat with (S (i - S k)) by lia. exact Hl.
Qed.

Section RegistryFacts.
Context {M : MathLib}.
Variable num : Value.

(** The interpreter reads the variable list only through the first entry
    named like the token. *)
Lemma evalLine_find variableList1 variableList2 st token :
  find_variable variableList1 (Js.trim token)
  = find_variable variableList2 (Js.trim token) ->
  evalLine variableList1 num st token = evalLine variableList2 num st token.
Proof.
  intros H. unfold evalLine, getVariableIndex.
  pose proof (getVariableIndex_from_find variableList1 (Js.trim token) 0) as H1.
  pose proof (getVariableIndex_from_find variableList2 (Js.trim token) 0) as H2.
  destruct (getVariableIndex_from 0 variableList1 _) as [i1|],
           (getVariableIndex_from 0 variableList2 _) as [i2|].
  - destruct H1 as (H1 & _), H2 as (H2 & _).
    rewrite Nat.sub_0_r in H1, H2. now rewrite H1, H2, H.
  - destruct H1 as (_ & _ & H1). congruence.
  - destruct H2 as (_ & _ & H2). congruence.
  - reflexivity.
Qed.

Lemma evalLines_find variableList1 variableList2 functionList :
  Forall (fun token =>
            find_variable variableList1 (Js.trim token)
            = find_variable variableList2 (Js.trim token)) functionList ->
  forall st,
    evalLines variableList1 num st functionList
    = evalLines variableList2 num st functionList.
Proof.
  induction 1 as [|token rest Ht _ IH]; intros st; simpl; [reflexivity |].
  rewrite (evalLine_find _ _ _ _ Ht).
  destruct (evalLine variableList2 num st token); simpl; auto.
Qed.

Lemma find_snoc (p : VariableEntry -> bool) l var :
  p var = false -> find p (l ++ [var]) = find p l.
Proof.
  intros H. induction l as [|v l IH]; simpl; [now rewrite H |].
  now destruct (p v).
Qed.

Lemma find_variable_blank variableList var line :
  name var = "" ->
  line = "" \/
  find_variable (variableList ++ [var]) line = find_variable variableList line.
Proof.
  intros Hname. destruct (String.eqb_spec line "") as [-> | Hne]; [now left |].
  right. unfold find_variable. apply find_snoc. rewrite Hname.
  apply String.eqb_neq. congruence.
Qed.

(** X4: the variable that the "add variable" button appends has an empty
    name, which no token can match: every program evaluates exactly as
    before. *)
Theorem addVariableElement_is_inert variableList functionList :
  run (VariableList.addVariableElement variableList) num functionList
  = run variableList num functionList.
Proof.
  unfold run, VariableList.addVariableElement.
  cut (forall st,
         evalLines (variableList ++ [mkVariable "" constant (mkComplex 0 0)])
           num st functionList
         = evalLines variableList num st functionList).
  { intros H. now rewrite H. }
  induction functionList as [|token rest IH]; intros st; simpl;
    [reflexivity |].
  assert (Ht : evalLine
                 (variableList ++ [mkVariable "" constant (mkComplex 0 0)])
                 num st token
               = evalLine variableList num st token).
  { destruct (find_variable_blank variableList
                (mkVariable "" constant (mkComplex 0 0)) (Js.trim token)
                eq_refl) as [Hempty | Hfind].
    - unfold evalLine. now rewrite Hempty.
    - now apply evalLine_find. }
  rewrite Ht. destruct (evalLine variableList num st token); simpl; auto.
Qed.

Lemma find_delete (p : VariableEntry -> bool) l : forall index,
  (forall var, l !! index = Some var -> p var = false) ->
  find p (delete index l) = find p l.
Proof.
  induction l as [|v l IH]; intros [|index] H; simpl; try reflexivity.
  - now rewrite (H v eq_refl).
  - destruct (p v); [reflexivity |]. apply IH. intros var Hvar.
    now apply H.
Qed.

(** X5: deleting a variable changes nothing for a program none of whose
    tokens is the name of the deleted entry. *)
Theorem deleteVariable_other_names variableList index var functionList :
  variableList !! index = Some var ->
  Forall (fun token => Js.trim token <> name var) functionList ->
  run (VariableList.deleteVariable index variableList) num functionList
  = run variableList num functionList.
Proof.
  intros Hvar Htokens. unfold run, VariableList.deleteVariable.
  rewrite (evalLines_find (delete index variableList) variableList);
    [reflexivity |].
  eapply Forall_impl; [exact Htokens |].
  intros token Hne. cbv beta in *. unfold find_variable. apply find_delete.
  intros var' Hvar'. rewrite Hvar in Hvar'. injection Hvar' as <-.
  now apply String.eqb_neq.
Qed.

End RegistryFacts.

(** X5 on the default list: without "pi", a program that uses "e" only. *)
Lemma deleteVariable_other_names_witness :
  defaultVariableList !! 0%nat
  = Some (mkVariable "pi" constant (mkComplex PI 0))
  /\ Forall (fun token => Js.trim token <> "pi") ["x"; "e"; "*"]
  /\ run (M := coarse_math) (VariableList.deleteVariable 0 defaultVariableList)
       (VNum 2) ["x"; "e"; "*"]
     = run (M := coarse_math) defaultVariableList (VNum 2) ["x"; "e"; "*"].
Proof.
  split; [reflexivity |].
  split; [repeat constructor; discriminate |].
  apply (deleteVariable_other_names (M := coarse_math) (VNum 2)
           defaultVariableList 0 (mkVariable "pi" constant (mkComplex PI 0))).
  - reflexivity.
  - repeat constructor; discriminate.
Defined.

(** ** The literal parser of script.js *)

Lemma white_space_not_comma c :
  Js.is_white_space c = true -> Ascii.eqb c "," = false.
Proof.
  intros H. destruct (Ascii.eqb_spec c ","%char) as [-> |]; [|reflexivity].
  discriminate H.
Qed.

Lemma remove_white_space_replace_commas s :
  Js.remove_white_space (Js.replace_commas (Js.remove_white_space s))
  = Js.remove_white_space (Js.replace_commas s).
Proof.
  induction s as [|c s IH]; simpl; [reflexivity |].
  destruct (Js.is_white_space c) eqn:Hc.
  - rewrite (white_space_not_comma _ Hc), Hc. exact IH.
  - simpl. destruct (Ascii.eqb c ","); simpl; rewrite ?Hc; now rewrite IH.
Qed.

Lemma replace_commas_idempotent s :
  Js.replace_commas (Js.replace_commas s) = Js.replace_commas s.
Proof.
  induction s as [|c s IH]; simpl; [reflexivity |].
  rewrite IH. destruct (Ascii.eqb_spec c ","%char) as [-> |Hne];
    [reflexivity |].
  now rewrite (proj2 (Ascii.eqb_neq _ _) Hne).
Qed.

(** X6: white space anywhere in the literal is ignored, and a comma reads
    as a decimal point. *)
Theorem script_parseNumber_normalises (num : string) :
  ScriptJs.parseNumber (Js.remove_white_space num) = ScriptJs.parseNumber num
  /\ ScriptJs.parseNumber (Js.replace_commas num) = ScriptJs.parseNumber num.
Proof.
  unfold ScriptJs.parseNumber. cbn zeta.
  now rewrite remove_white_space_replace_commas, replace_commas_idempotent.
Qed.

Lemma append_assoc (s t u : string) :
  String.append (String.append s t) u = String.append s (String.append t u).
Proof.
  induction s as [|c s IH]; [reflexivity |].
  change (String c (String.append (String.append s t) u)
          = String c (String.append s (String.append t u))).
  now rewrite IH.
Qed.

Lemma append_empty_r (s : string) : String.append s EmptyString = s.
Proof.
  induction s as [|c s IH]; [reflexivity |].
  change (String c (String.append s EmptyString) = String c s).
  now rewrite IH.
Qed.

Lemma join_snoc numbers s : join (numbers ++ [s]) = String.append (join numbers) s.
Proof.
  induction numbers as [|x l IH]; simpl.
  - apply append_empty_r.
  - fold (join (l ++ [s])). fold (join l). rewrite IH.
    symmetry. apply append_assoc.
Qed.

Lemma substring_empty a m : String.substring a m EmptyString = EmptyString.
Proof. destruct a, m; reflexivity. Qed.

Lemma substring_split s : forall a b c,
  (a <= b)%nat -> (b <= c)%nat ->
  String.append (String.substring a (b - a) s) (String.substring b (c - b) s)
  = String.substring a (c - a) s.
Proof.
  induction s as [|ch s IH]; intros a b c Hab Hbc.
  - now rewrite !substring_empty.
  - destruct a as [|a].
    + rewrite !Nat.sub_0_r. destruct b as [|b].
      * now rewrite Nat.sub_0_r.
      * destruct c as [|c]; [lia |]. simpl.
        specialize (IH 0%nat b c). rewrite !Nat.sub_0_r in IH.
        change (String ch (String.append (String.substring 0 b s)
                             (String.substring b (c - b) s))
                = String ch (String.substring 0 c s)).
        rewrite IH by lia. reflexivity.
    + destruct b as [|b]; [lia |]. destruct c as [|c]; [lia |].
      simpl. apply IH; lia.
Qed.

Lemma split_fold num : forall n i numbers beginning,
  (beginning <= i)%nat ->
  String.append (join numbers) (String.substring beginning (i - beginning) num)
  = String.substring 0 i num ->
  let '(numbers', beginning') :=
    fold_left (ScriptJs.split_step num) (seq i n) (numbers, beginning) in
  (beginning' <= i + n)%nat
  /\ String.append (join numbers')
       (String.substring beginning' (i + n - beginning') num)
     = String.substring 0 (i + n) num.
Proof.
  induction n as [|n IH]; intros i numbers beginning Hle Hinv; simpl.
  - rewrite Nat.add_0_r. auto.
  - assert (Hnext : String.append (String.substring 0 i num)
                      (String.substring i 1 num)
                    = String.substring 0 (S i) num).
    { pose proof (substring_split num 0 i (S i)) as H.
      rewrite !Nat.sub_0_r in H. replace (S i - i)%nat with 1%nat in H by lia.
      apply H; lia. }
    replace (i + S n)%nat with (S i + n)%nat by lia.
    destruct (Js.includes_char "+-" (Js.at_index num i)).
    + apply IH; [lia |].
      rewrite join_snoc. unfold Js.substring. rewrite Hinv.
      replace (S i - i)%nat with 1%nat by lia. exact Hnext.
    + apply IH; [lia |].
      rewrite <- (substring_split num beginning i (S i)) by lia.
      rewrite <- append_assoc, Hinv.
      replace (S i - i)%nat with 1%nat by lia. exact Hnext.
Qed.

(** X7: the terms the literal is cut into, put end to end, give the
    literal back: the cut loses and repeats no character. *)
Theorem split_terms_join (num : string) :
  join (ScriptJs.split_terms num) = num.
Proof.
  unfold ScriptJs.split_terms.
  destruct num as [|c num].
  - reflexivity.
  - pose proof (split_fold (String c num) (String.length (String c num) - 1)
                  1 [] 0) as H.
    destruct (fold_left _ _ _) as [numbers beginning].
    destruct H as [Hle Hinv]; [lia | reflexivity |].
    rewrite join_snoc. unfold Js.substring.
    replace (1 + (String.length (String c num) - 1))%nat
      with (String.length (String c num)) in Hinv by (simpl; lia).
    rewrite Hinv. apply substring_all.
Qed.

Lemma split_terms_single num :
  no_inner_sign num = true -> ScriptJs.split_terms num = [num].
Proof.
  unfold no_inner_sign, ScriptJs.split_terms. intros H.
  assert (Hfold : forall l acc,
            forallb (fun i => negb (Js.includes_char "+-" (Js.at_index num i)))
              l = true ->
            fold_left (ScriptJs.split_step num) l acc = acc).
  { induction l as [|i l IH]; intros [numbers beginning] Hl; simpl in *;
      [reflexivity |].
    apply andb_true_iff in Hl as [Hi Hl]. apply negb_true_iff in Hi.
    rewrite Hi. now apply IH. }
  rewrite Hfold by exact H. simpl. unfold Js.substring.
  now rewrite Nat.sub_0_r, substring_all.
Qed.

(** X8: a literal of one term (no comma, no white space, no sign after
    the first character) is purely imaginary when it ends in i, I, j or J,
    and purely real otherwise, its value being [0 + Number(num)]. *)
Theorem script_parseNumber_single_term (num : string) :
  Js.replace_commas num = num ->
  Js.remove_white_space num = num ->
  no_inner_sign num = true ->
  if Js.includes_char "iIjJ" (Js.last_char num)
  then re (ScriptJs.parseNumber num) = 0
  else ScriptJs.parseNumber num = mkComplex (0 + Js.StringToNumber num) 0.
Proof.
  intros Hc Hw Hs. unfold ScriptJs.parseNumber. cbn zeta.
  rewrite Hc, Hw, (split_terms_single _ Hs). simpl.
  unfold ScriptJs.add_term.
  destruct (Js.includes_char "iIjJ" (Js.last_char num)); [| reflexivity].
  destruct (_ && _); [destruct (Js.char_is _ _) |]; reflexivity.
Qed.

(** X8 on the literals "2.5j" and "-7". *)
Lemma script_parseNumber_single_term_witness :
  (Js.replace_commas "2.5j" = "2.5j" /\ Js.remove_white_space "2.5j" = "2.5j"
   /\ no_inner_sign "2.5j" = true
   /\ re (ScriptJs.parseNumber "2.5j") = 0)
  /\ (Js.replace_commas "-7" = "-7" /\ Js.remove_white_space "-7" = "-7"
      /\ no_inner_sign "-7" = true
      /\ ScriptJs.parseNumber "-7" = mkComplex (0 + Js.StringToNumber "-7") 0).
Proof.
  split.
  - repeat (split; [reflexivity |]).
    exact (script_parseNumber_single_term "2.5j" eq_refl eq_refl eq_refl).
  - repeat (split; [reflexivity |]).
    exact (script_parseNumber_single_term "-7" eq_refl eq_refl eq_refl).
Defined.

(** ** [trim] *)

Lemma rev_app_append s : forall t,
  String.rev_app s t = String.append (String.rev s) t.
Proof.
  unfold String.rev.
  induction s as [|c s IH]; intros t; simpl; [reflexivity |].
  rewrite IH, (IH (String c EmptyString)), append_assoc. reflexivity.
Qed.

Lemma rev_cons c s :
  String.rev (String c s) = String.append (String.rev s) (String c EmptyString).
Proof. unfold String.rev at 1. simpl. apply rev_app_append. Qed.

Lemma rev_append s t :
  String.rev (String.append s t)
  = String.append (String.rev t) (String.rev s).
Proof.
  induction s as [|c s IH].
  - simpl. now rewrite append_empty_r.
  - change (String.append (String c s) t) with (String c (String.append s t)).
    now rewrite !rev_cons, IH, append_assoc.
Qed.

Lemma rev_involutive s : String.rev (String.rev s) = s.
Proof.
  induction s as [|c s IH]; [reflexivity |].
  now rewrite rev_cons, rev_append, IH.
Qed.

Lemma trimStart_idempotent s : Js.trimStart (Js.trimStart s) = Js.trimStart s.
Proof.
  induction s as [|c s IH]; simpl; [reflexivity |].
  destruct (Js.is_white_space c) eqn:Hc; [exact IH |].
  simpl. now rewrite Hc.
Qed.

Lemma trimStart_snoc s c :
  Js.is_white_space c = false ->
  Js.trimStart (String.append s (String c EmptyString))
  = String.append (Js.trimStart s) (String c EmptyString).
Proof.
  intros Hc. induction s as [|d s IH].
  - simpl. now rewrite Hc.
  - change (String.append (String d s) (String c EmptyString))
      with (String d (String.append s (String c EmptyString))).
    simpl. destruct (Js.is_white_space d); [exact IH | reflexivity].
Qed.

(** A text that starts with a character that is no white space keeps it
    when trimmed. *)
Lemma trim_head c s :
  Js.is_white_space c = false ->
  Js.trim (String c s)
  = String c (String.rev (Js.trimStart (String.rev s))).
Proof.
  intros Hc. unfold Js.trim. simpl. rewrite Hc.
  rewrite rev_cons, (trimStart_snoc _ _ Hc), rev_append. reflexivity.
Qed.

Lemma trimStart_head s c s' :
  Js.trimStart s = String c s' -> Js.is_white_space c = false.
Proof.
  induction s as [|d s IH]; simpl; [discriminate |].
  destruct (Js.is_white_space d) eqn:Hd; [exact IH |].
  intros H. injection H as <- _. exact Hd.
Qed.

Lemma trim_trimStart s : Js.trim (Js.trimStart s) = Js.trim s.
Proof. unfold Js.trim. now rewrite trimStart_idempotent. Qed.

Lemma trim_idempotent s : Js.trim (Js.trim s) = Js.trim s.
Proof.
  rewrite <- (trim_trimStart s).
  destruct (Js.trimStart s) as [|c s'] eqn:Hs; [reflexivity |].
  pose proof (trimStart_head _ _ _ Hs) as Hc.
  rewrite !(trim_head _ _ Hc), rev_involutive, trimStart_idempotent.
  reflexivity.
Qed.

(** ** The interpreter on whole programs *)

Lemma promote_throws v e : Complex.promote v = Throw e -> e = TypeError.
Proof. destruct v; simpl; congruence. Qed.

Section ProgramFacts.
Context {M : MathLib}.
Variable variableList : list VariableEntry.
Variable num : Value.

(** The state with the values [below] under its stack. *)
Lemma push_above below v st :
  push v (mkState (calculatedVars st) (below ++ functionStack st))
  = mkState (calculatedVars (push v st)) (below ++ functionStack (push v st)).
Proof. unfold push. simpl. now rewrite app_assoc. Qed.

Lemma apply_operation_above below op st st' :
  apply_operation op st = Return st' ->
  apply_operation op (mkState (calculatedVars st) (below ++ functionStack st))
  = Return (mkState (calculatedVars st') (below ++ functionStack st')).
Proof.
  unfold apply_operation, slice. simpl.
  set (stack := functionStack st). set (k := args op).
  destruct (Z.ltb_spec (Z.of_nat (length stack) - Z.of_nat k) 0)
    as [Hshort | Hlong].
  { destruct (function op _); discriminate. }
  rewrite length_app.
  destruct (Z.ltb_spec
    (Z.of_nat (length below + length stack) - Z.of_nat k) 0); [lia |].
  rewrite !Z.min_l by lia.
  replace (Z.to_nat (Z.of_nat (length below + length stack) - Z.of_nat k))
    with (length below + (length stack - k))%nat by lia.
  replace (Z.to_nat (Z.of_nat (length stack) - Z.of_nat k))
    with (length stack - k)%nat by lia.
  rewrite drop_app_add.
  destruct (function op _) as [v | |]; simpl; try discriminate.
  intros [= <-]. simpl.
  replace (length below + length stack - k)%nat
    with (length below + (length stack - k))%nat by lia.
  now rewrite take_app_add, app_assoc.
Qed.

Lemma evalLine_above below st token st' :
  first_char_is (Js.trim token) "=" = false ->
  evalLine variableList num st token = Return st' ->
  evalLine variableList num
    (mkState (calculatedVars st) (below ++ functionStack st)) token
  = Return (mkState (calculatedVars st') (below ++ functionStack st')).
Proof.
  unfold evalLine. generalize (Js.trim token). intros line Hassign.
  destruct (String.eqb line "x"); [intros [= <-]; now rewrite push_above |].
  destruct (negb (String.eqb line "") && negb (first_char_is line "#"));
    [| now intros [= <-]].
  rewrite Hassign.
  destruct (operations line) as [op|]; [apply apply_operation_above |].
  destruct (getVariableIndex variableList line) as [i|].
  - destruct (variableList !! i); [| discriminate].
    intros [= <-]. now rewrite push_above.
  - simpl calculatedVars.
    destruct (has_property _ _); intros [= <-]; now rewrite push_above.
Qed.

(** X9: a program without assignment lines never reads or changes what
    lies below the values it works on: when it returns from a stack, it
    returns from that stack with [below] under it as well, with the same
    calculated variables and [below] under the resulting stack.  (An
    assignment is different: [pop] on an empty stack yields [undefined],
    and with [below] under it the top of [below].) *)
Theorem stack_below_is_untouched (below : list Value)
    (functionList : list string) (st st' : State) :
  Forall (fun token => first_char_is (Js.trim token) "=" = false)
    functionList ->
  evalLines variableList num st functionList = Return st' ->
  evalLines variableList num
    (mkState (calculatedVars st) (below ++ functionStack st)) functionList
  = Return (mkState (calculatedVars st') (below ++ functionStack st')).
Proof.
  intros Htokens. revert st.
  induction Htokens as [|token rest Htoken _ IH]; intros st; simpl.
  - now intros [= <-].
  - destruct (evalLine variableList num st token) as [st1 | |] eqn:Hstep;
      simpl; try discriminate.
    rewrite (evalLine_above below _ _ _ Htoken Hstep). simpl. apply IH.
Qed.

Lemma evalLine_skipped st token :
  is_skipped token = true -> evalLine variableList num st token = Return st.
Proof.
  unfold is_skipped, evalLine. generalize (Js.trim token). intros line H.
  apply orb_true_iff in H as [H | H].
  - apply String.eqb_eq in H. now subst line.
  - destruct (String.eqb_spec line "x") as [-> | _]; [discriminate H |].
    now rewrite H, andb_false_r.
Qed.


(** X10: tokens that are blank or start with "#" have no effect: a
    program gives the same outcome with and without them. *)
Theorem comments_are_ignored (functionList : list string) :
  run variableList num
    (List.filter (fun token => negb (is_skipped token)) functionList)
  = run variableList num functionList.
Proof.
  unfold run. generalize initial.
  induction functionList as [|token rest IH]; intros st; simpl;
    [reflexivity |].
  destruct (is_skipped token) eqn:Hs; simpl.
  - now rewrite (evalLine_skipped _ _ Hs), IH.
  - destruct (evalLine variableList num st token); simpl; auto.
Qed.

Lemma script_function_throws line op values e :
  In line script_symbols ->
  operations line = Some op ->
  function op values = Throw e ->
  e = TypeError.
Proof.
  intros Hin Hop. simpl in Hin.
  repeat (destruct Hin as [<- | Hin];
    [ cbn in Hop; injection Hop as <-; cbn;
      unfold Complex.binary, Complex.unary, Complex.abs_method;
      repeat match goal with
      | |- context [Complex.promote ?v] =>
          let E := fresh in
          destruct (Complex.promote v) eqn:E; simpl;
          [| apply promote_throws in E | ]
      end;
      try congruence; destruct (Complex.arg 0 values); congruence |]).
  destruct Hin.
Qed.

(** What the seven methods do with their operands: a TypeError when one
    of them is [undefined], a result otherwise. *)
Lemma script_function_outcome line op values :
  In line script_symbols ->
  operations line = Some op ->
  ((exists i, (i < args op)%nat /\ Complex.arg i values = VUndefined)
   /\ function op values = Throw TypeError)
  \/ ((forall i, (i < args op)%nat -> Complex.arg i values <> VUndefined)
      /\ exists v, function op values = Return v).
Proof.
  intros Hin Hop. simpl in Hin.
  repeat (destruct Hin as [<- | Hin];
    [ cbn in Hop; injection Hop as <-; cbn;
      unfold Complex.binary, Complex.unary, Complex.abs_method;
      destruct (Complex.arg 0 values) eqn:H0;
      try destruct (Complex.arg 1 values) eqn:H1; simpl;
      first
        [ left; split; [| reflexivity];
          first [ exists 0%nat; split; [lia | assumption]
                | exists 1%nat; split; [lia | assumption] ]
        | right; split; [| eauto];
          intros [|[|i]] Hi; try lia; congruence ] |]).
  destruct Hin.
Qed.

Lemma length_slice (A : Type) (l : list A) (start : Z) :
  (length (slice l start) <= length l)%nat.
Proof. unfold slice. rewrite length_drop. lia. Qed.

Lemma apply_operation_throws_iff st line op e :
  In line script_symbols ->
  operations line = Some op ->
  apply_operation op st = Throw e
  <-> e = TypeError
      /\ exists i, (i < args op)%nat
           /\ Complex.arg i
                (slice (functionStack st)
                   (Z.of_nat (length (functionStack st))
                    - Z.of_nat (args op))) = VUndefined.
Proof.
  intros Hin Hop. unfold apply_operation.
  set (values := slice _ _).
  destruct (script_function_outcome line op values Hin Hop)
    as [[Hundefined ->] | [Hdefined [v ->]]]; simpl.
  - split; [intros [= <-]; auto | now intros [-> _]].
  - destruct (Z.ltb_spec
      (Z.of_nat (length (functionStack st)) - Z.of_nat (args op)) 0)
      as [Hshort | Hlong].
    + exfalso. apply (Hdefined (length values)).
      * pose proof (length_slice _ (functionStack st)
                      (Z.of_nat (length (functionStack st))
                       - Z.of_nat (args op))).
        fold values in H. lia.
      * unfold Complex.arg. now apply nth_overflow.
    + split; [discriminate |].
      intros [_ (i & Hi & Hu)]. now destruct (Hdefined i Hi).
Qed.

Lemma apply_operation_throws st line op e :
  operations line = Some op ->
  apply_operation op st = Throw e ->
  e = TypeError /\ In line script_symbols.
Proof.
  intros Hop Happ.
  assert (Hscript : In line script_symbols).
  { pose proof (operations_symbol _ _ Hop) as Hin. simpl in Hin |- *.
    repeat (destruct Hin as [<- | Hin]; [tauto |]).
    exfalso.
    repeat (destruct Hin as [<- | Hin];
      [cbn in Hop; injection Hop as <-; discriminate Happ |]).
    destruct Hin. }
  split; [| exact Hscript].
  destruct (Nat.lt_ge_cases (length (functionStack st)) (args op))
    as [Hlt | Hge].
  - rewrite (apply_operation_underflow _ _ _ Hscript Hop Hlt) in Happ.
    congruence.
  - unfold apply_operation in Happ.
    destruct (function op _) eqn:Hf; simpl in Happ; try discriminate.
    + destruct (Z.ltb_spec
        (Z.of_nat (length (functionStack st)) - Z.of_nat (args op)) 0);
        [lia | discriminate].
    + injection Happ as <-.
      exact (script_function_throws _ _ _ _ Hscript Hop Hf).
Qed.

Lemma evalLine_throws st token e :
  evalLine variableList num st token = Throw e ->
  exists op, operations (Js.trim token) = Some op
             /\ In (Js.trim token) script_symbols.
Proof.
  unfold evalLine. generalize (Js.trim token). intros line.
  destruct (String.eqb line "x"); [discriminate |].
  destruct (negb (String.eqb line "") && negb (first_char_is line "#"));
    [| discriminate].
  destruct (first_char_is line "=").
  - unfold assign. destruct (pop (functionStack st)) as [v stack].
    unfold set_property.
    destruct (String.eqb _ _); [destruct v |]; discriminate.
  - destruct (operations line) as [op|] eqn:Hop.
    + intros H. exists op. split; [reflexivity |].
      exact (proj2 (apply_operation_throws _ _ _ _ Hop H)).
    + destruct (getVariableIndex variableList line) as [i|] eqn:Hi.
      * destruct (getVariableIndex_lookup _ _ _ Hi) as (var & -> & _).
        discriminate.
      * destruct (has_property _ _); discriminate.
Qed.

(** X11: the interpreter throws exactly when the token is one of the
    seven operators of script.js and one of the operands it takes from
    the stack is [undefined]: a value that is missing because the stack
    is too short, or an [undefined] that is on the stack (an assignment
    from an empty stack binds it, and the name pushes it).  What is
    thrown is then a TypeError: [x], a name, a number, a comment and an
    assignment never throw, and the shortening of the stack never raises
    a RangeError.  (The six trigonometric operators, whose code is not
    among the sources, neither return nor throw in the model.) *)
Theorem only_operators_throw st token e :
  evalLine variableList num st token = Throw e
  <-> e = TypeError
      /\ exists op i,
           In (Js.trim token) script_symbols
           /\ operations (Js.trim token) = Some op
           /\ (i < args op)%nat
           /\ Complex.arg i
                (slice (functionStack st)
                   (Z.of_nat (length (functionStack st))
                    - Z.of_nat (args op))) = VUndefined.
Proof.
  split.
  - intros Hthrow.
    destruct (evalLine_throws _ _ _ Hthrow) as (op & Hop & Hin).
    rewrite (evalLine_operator _ _ _ _ _ Hop) in Hthrow.
    apply (apply_operation_throws_iff _ _ _ _ Hin Hop) in Hthrow
      as [-> (i & Hi & Hu)].
    split; [reflexivity |]. exists op, i. auto.
  - intros [-> (op & i & Hin & Hop & Hi & Hu)].
    rewrite (evalLine_operator _ _ _ _ _ Hop).
    apply (apply_operation_throws_iff _ _ _ _ Hin Hop). eauto.
Qed.

(** X12: only an assignment line changes the map of calculated
    variables. *)
Theorem calculatedVars_changed_by_assignment_only st token st' :
  first_char_is (Js.trim token) "=" = false ->
  evalLine variableList num st token = Return st' ->
  calculatedVars st' = calculatedVars st.
Proof.
  unfold evalLine. generalize (Js.trim token). intros line Heq.
  destruct (String.eqb line "x"); [now intros [= <-] |].
  destruct (negb (String.eqb line "") && negb (first_char_is line "#"));
    [| now intros [= <-]].
  rewrite Heq.
  destruct (operations line) as [op|].
  - unfold apply_operation. destruct (function op _); simpl; try discriminate.
    destruct (_ <? _)%Z; [discriminate | now intros [= <-]].
  - destruct (getVariableIndex variableList line) as [i|].
    + destruct (variableList !! i); [now intros [= <-] | discriminate].
    + destruct (has_property _ _); now intros [= <-].
Qed.

(** X13: what a token does to the depth of the stack when it returns: a
    skipped token leaves it, an assignment takes one value off (none from
    an empty stack), an operator of arity [k] needs [k] values and leaves
    [k - 1] fewer, and [x], a name or a number adds one. *)
Theorem stack_depth st token st' :
  evalLine variableList num st token = Return st' ->
  let depth := length (functionStack st) in
  let depth' := length (functionStack st') in
  if String.eqb (Js.trim token) "x" then depth' = S depth
  else if is_skipped token then depth' = depth
  else if first_char_is (Js.trim token) "=" then depth' = (depth - 1)%nat
  else match operations (Js.trim token) with
       | Some op => (args op <= depth)%nat
                    /\ (depth' + args op = depth + 1)%nat
       | None => depth' = S depth
       end.
Proof.
  unfold evalLine, is_skipped. generalize (Js.trim token). intros line.
  destruct (String.eqb line "x").
  { intros [= <-]. simpl. rewrite length_app. simpl. lia. }
  destruct (String.eqb line ""); simpl.
  { now intros [= <-]. }
  destruct (first_char_is line "#"); simpl.
  { now intros [= <-]. }
  destruct (first_char_is line "=").
  { unfold assign, pop.
    destruct (functionStack st) as [|a l] eqn:Hst using rev_ind.
    - simpl. destruct (set_property _ _ _); simpl; try discriminate.
      now intros [= <-].
    - rewrite last_snoc, removelast_last.
      destruct (set_property _ _ _); simpl; try discriminate.
      intros [= <-]. simpl. rewrite length_app. simpl. lia. }
  destruct (operations line) as [op|].
  - unfold apply_operation. destruct (function op _); simpl; try discriminate.
    destruct (Z.ltb_spec
      (Z.of_nat (length (functionStack st)) - Z.of_nat (args op)) 0);
      [discriminate |].
    intros [= <-]. simpl. rewrite length_app, length_take. simpl. lia.
  - assert (Hpush : forall v, length (functionStack (push v st))
                              = S (length (functionStack st))).
    { intros v. simpl. rewrite length_app. simpl. lia. }
    destruct (getVariableIndex variableList line) as [i|].
    + destruct (variableList !! i); [| discriminate].
      intros [= <-]. apply Hpush.
    + destruct (has_property _ _); intros [= <-]; apply Hpush.
Qed.

(** X14: an assignment followed by the name it bound puts the value back
    on the stack, now recorded in the map, provided the Registry has no
    variable of that name. *)
Theorem assign_then_read st assignment token stack v :
  first_char_is (Js.trim assignment) "=" = true ->
  assigned_name (Js.trim assignment) = Js.trim token ->
  Js.trim token <> "__proto__" ->
  is_name token = true ->
  getVariableIndex variableList (Js.trim token) = None ->
  functionStack st = stack ++ [v] ->
  evalLines variableList num st [assignment; token]
  = Return (mkState (<[Js.trim token := v]> (calculatedVars st))
              (stack ++ [v])).
Proof.
  intros Ha Hkey Hproto Hname Hidx Hst. simpl.
  rewrite (evalLine_assign _ _ _ _ Ha). unfold assign.
  rewrite Hst, pop_snoc, Hkey, set_property_plain by exact Hproto. simpl.
  rewrite (evalLine_calculated _ _ _ token v); auto.
  - apply trim_idempotent.
  - simpl. apply lookup_insert_eq.
Qed.

End ProgramFacts.

(** X9 on the program [x x *] and one value below. *)
Lemma stack_below_is_untouched_witness :
  Forall (fun token => first_char_is (Js.trim token) "=" = false)
    ["x"; "x"; "*"]
  /\ evalLines (M := coarse_math) defaultVariableList (VNum 3)
       (mkState ∅ []) ["x"; "x"; "*"]
     = Return (mkState ∅ [VComplex (mkComplex 9 0)])
  /\ evalLines (M := coarse_math) defaultVariableList (VNum 3)
       (mkState ∅ ([VNum 7] ++ [])) ["x"; "x"; "*"]
     = Return (mkState ∅ ([VNum 7] ++ [VComplex (mkComplex 9 0)])).
Proof.
  assert (Htokens : Forall
            (fun token => first_char_is (Js.trim token) "=" = false)
            ["x"; "x"; "*"])
    by (repeat constructor).
  split; [exact Htokens |]. split; [reflexivity |].
  exact (stack_below_is_untouched (M := coarse_math) defaultVariableList
           (VNum 3) [VNum 7] ["x"; "x"; "*"] (mkState ∅ [])
           (mkState ∅ [VComplex (mkComplex 9 0)]) Htokens eq_refl).
Defined.

(** X11 on the token "ln" and a stack that holds one value,
    [undefined]. *)
Lemma only_operators_throw_witness :
  evalLine (M := coarse_math) defaultVariableList (VNum 2)
    (mkState (<["a" := VUndefined]> ∅) [VUndefined]) "ln"
  = Throw TypeError
  /\ Complex.arg 0
       (slice [VUndefined] (Z.of_nat (length [VUndefined]) - 1)) = VUndefined.
Proof.
  split; [| reflexivity].
  apply (only_operators_throw (M := coarse_math) defaultVariableList (VNum 2)
           (mkState (<["a" := VUndefined]> ∅) [VUndefined]) "ln" TypeError).
  split; [reflexivity |].
  exists (mkOperation 1 (Complex.unary Complex.ln)), 0%nat.
  split; [do 5 right; left; reflexivity |].
  split; [reflexivity |]. split; [simpl; lia | reflexivity].
Defined.

(** X12 on the token "e". *)
Lemma calculatedVars_changed_by_assignment_only_witness :
  first_char_is (Js.trim "e") "=" = false
  /\ evalLine (M := coarse_math) defaultVariableList (VNum 2)
       (mkState (<["a" := VNum 1]> ∅) []) "e"
     = Return (mkState (<["a" := VNum 1]> ∅) [VComplex (mkComplex E 0)])
  /\ calculatedVars
       (mkState (<["a" := VNum 1]> ∅) [VComplex (mkComplex E 0)])
     = calculatedVars (mkState (<["a" := VNum 1]> ∅) []).
Proof.
  split; [reflexivity |]. split; [reflexivity |].
  exact (calculatedVars_changed_by_assignment_only (M := coarse_math)
           defaultVariableList (VNum 2) (mkState (<["a" := VNum 1]> ∅) [])
           "e" _ eq_refl eq_refl).
Defined.

(** X13 on the token "*" and a stack of three values. *)
Lemma stack_depth_witness :
  evalLine (M := coarse_math) defaultVariableList (VNum 2)
    (mkState ∅ [VNum 1; VNum 2; VNum 3]) "*"
  = Return (mkState ∅ [VNum 1; VComplex (mkComplex 6 0)])
  /\ (2 <= 3)%nat /\ (2 + 2 = 3 + 1)%nat.
Proof.
  split; [reflexivity |].
  exact (stack_depth (M := coarse_math) defaultVariableList (VNum 2)
           (mkState ∅ [VNum 1; VNum 2; VNum 3]) "*"
           (mkState ∅ [VNum 1; VComplex (mkComplex 6 0)]) eq_refl).
Defined.

(** X14 on the lines " = a " and "a". *)
Lemma assign_then_read_witness :
  first_char_is (Js.trim " = a ") "=" = true
  /\ assigned_name (Js.trim " = a ") = Js.trim "a"
  /\ Js.trim "a" <> "__proto__"
  /\ is_name (M := coarse_math) "a" = true
  /\ getVariableIndex defaultVariableList (Js.trim "a") = None
  /\ evalLines (M := coarse_math) defaultVariableList (VNum 2)
       (mkState ∅ [VNum 1; VNum 7]) [" = a "; "a"]
     = Return (mkState (<["a" := VNum 7]> ∅) [VNum 1; VNum 7]).
Proof.
  repeat (split; [first [reflexivity | discriminate] |]).
  exact (assign_then_read (M := coarse_math) defaultVariableList (VNum 2)
           (mkState ∅ [VNum 1; VNum 7]) " = a " "a" [VNum 1] (VNum 7)
           eq_refl eq_refl ltac:(discriminate) eq_refl eq_refl eq_refl).
Defined.

(** ** The text of the function: lines, comments and blank lines *)

Lemma split_lines_aux_app a b : forall cur,
  Js.split_lines_aux cur (String.append a (String "010" b))
  = Js.split_lines_aux cur a ++ Js.split_lines b.
Proof.
  induction a as [|c a IH]; intros cur; [reflexivity |].
  change (String.append (String c a) (String "010" b))
    with (String c (String.append a (String "010" b))).
  simpl. destruct (Ascii.eqb c "010"); rewrite IH; reflexivity.
Qed.


Section TextFacts.
Context {M : MathLib}.
Variable variableList : list VariableEntry.
Variable num : Value.
Variable parseExpression : string -> list string.

Lemma functionList_app (a b : string) :
  functionList parseExpression (String.append a (String "010" b))
  = functionList parseExpression a ++ functionList parseExpression b.
Proof.
  unfold functionList, Js.split_lines.
  now rewrite split_lines_aux_app, List.filter_app, flat_map_app.
Qed.

(** X15: the token list of a text is built line by line: the tokens of
    texts joined by line breaks are the tokens of the first, followed by
    those of the second, and so on. *)
Theorem functionList_lines (lines : list string) :
  functionList parseExpression (join_lines lines)
  = flat_map (functionList parseExpression) lines.
Proof.
  induction lines as [|line rest IH]; [reflexivity |].
  destruct rest as [|next rest].
  - simpl. now rewrite app_nil_r.
  - change (join_lines (line :: next :: rest))
      with (String.append line (String "010" (join_lines (next :: rest)))).
    rewrite functionList_app, IH. reflexivity.
Qed.




End TextFacts.


(** ** The resolution *)

Lemma abs_cases x :
  Prim2SF (PrimFloat.abs x) = S754_nan
  \/ Prim2SF (PrimFloat.abs x) = S754_zero false
  \/ Prim2SF (PrimFloat.abs x) = S754_infinity false
  \/ exists m e, Prim2SF (PrimFloat.abs x) = S754_finite false m e.
Proof.
  rewrite FloatAxioms.abs_spec.
  destruct (Prim2SF x) as [s|s| |s m e]; simpl; eauto 6.
Qed.

(** X17: the resolution that [updateCanvas] hands to [drawFunction] is
    never zero and never negative, whatever the text of the input. *)
Theorem canvas_resolution_not_zero (controls : Controls) :
  (canvas_resolution controls =? 0) = false
  /\ (canvas_resolution controls <? 0) = false.
Proof.
  unfold canvas_resolution.
  set (resolution := PrimFloat.abs _).
  destruct (resolution =? 0) eqn:Hzero; [split; reflexivity |].
  split; [exact Hzero |].
  rewrite FloatAxioms.ltb_spec.
  destruct (abs_cases (Js.StringToNumber (MainScript.resolution controls)))
    as [H | [H | [H | (m & e & H)]]];
    fold resolution in H; rewrite H; reflexivity.
Qed.

Lemma div_nan x : x / nan = nan.
Proof.
  pose proof (FloatAxioms.div_spec x nan) as H.
  change (Prim2SF nan) with S754_nan in H.
  destruct (Prim2SF x) as [s|s| |s m e]; cbn in H; by_spec H.
Qed.

Lemma leb_nan x : (x <=? nan) = false.
Proof.
  rewrite FloatAxioms.leb_spec. change (Prim2SF nan) with S754_nan.
  now destruct (Prim2SF x) as [s|s| |s m e].
Qed.

Section BatchEdges.
Variable R : Type.
Variable func : Value -> Outcome R.

(** X18: when the resolution is not a number, the batch is empty:
    [updateFunctionValues] returns after the first test of the loop,
    without calling [func], whatever the two bounds. *)
Theorem nan_step_gives_empty_batch (fuel : nat) (controls : Controls) :
  Js.StringToNumber (resolution controls) = nan ->
  updateFunctionValues R func (S fuel) controls = Some (Return []).
Proof.
  intros Hstep. unfold updateFunctionValues. rewrite Hstep.
  change (PrimFloat.abs nan) with nan. simpl.
  now rewrite div_nan, leb_nan.
Qed.

End BatchEdges.

(** X18 on the resolution "fine". *)
Lemma nan_step_gives_empty_batch_witness :
  Js.StringToNumber (resolution (mkControls "-2" "2" "fine")) = nan
  /\ updateFunctionValues Value (fun v => Return v) 1
       (mkControls "-2" "2" "fine")
     = Some (Return []).
Proof.
  split; [vm_compute; reflexivity |].
  apply (nan_step_gives_empty_batch Value (fun v => Return v) 0
           (mkControls "-2" "2" "fine")).
  vm_compute. reflexivity.
Defined.

(** ** Matrices and vectors *)

Lemma nth_map_seq {A : Type} (f : nat -> A) (n i : nat) (d : A) :
  (i < n)%nat -> nth i (map f (seq 0 n)) d = f i.
Proof.
  intros Hi.
  rewrite (nth_indep _ d (f 0%nat)) by now rewrite length_map, length_seq.
  now rewrite map_nth, seq_nth.
Qed.

Section TransposeFacts.
Variable A : Type.
Variable undefined : A.

Lemma transpose_entries (matrix : list (list A)) (height width : nat) :
  length matrix = height ->
  (0 < height)%nat ->
  length (nth 0 matrix []) = width ->
  LinearAlgebra.transpose A undefined matrix
  = Return (map (fun y =>
              map (fun x => nth y (nth x matrix []) undefined) (seq 0 height))
            (seq 0 width)).
Proof.
  intros Hheight Hpos Hwidth.
  destruct matrix as [|row0 rest]; simpl in *; [lia |].
  subst height width. reflexivity.
Qed.

(** X19: transposing twice gives the matrix back, for a matrix with at
    least one row whose rows all have the same length, at least one. *)
Theorem transpose_involutive (matrix : list (list A)) (width : nat) :
  matrix <> [] ->
  (0 < width)%nat ->
  Forall (fun row => length row = width) matrix ->
  (let* transposed := LinearAlgebra.transpose A undefined matrix in
   LinearAlgebra.transpose A undefined transposed)
  = Return matrix.
Proof.
  intros Hrows Hwidth Hrect.
  assert (Hheight : (0 < length matrix)%nat)
    by (destruct matrix; simpl; [congruence | lia]).
  assert (Hrow : forall y, (y < length matrix)%nat ->
            length (nth y matrix []) = width).
  { intros y Hy. rewrite List.Forall_forall in Hrect. now apply Hrect, nth_In. }
  rewrite (transpose_entries matrix (length matrix) width eq_refl Hheight
             (Hrow 0%nat Hheight)).
  cbn [bind].
  set (transposed := map _ (seq 0 width)).
  assert (Hentry : forall x y, (x < width)%nat -> (y < length matrix)%nat ->
            nth y (nth x transposed []) undefined
            = nth x (nth y matrix []) undefined).
  { intros x y Hx Hy. unfold transposed.
    now rewrite (nth_map_seq _ _ _ _ Hx), (nth_map_seq _ _ _ _ Hy). }
  rewrite (transpose_entries transposed width (length matrix)); trivial.
  - f_equal. apply (nth_ext _ _ [] []).
    + now rewrite length_map, length_seq.
    + intros y Hy. rewrite length_map, length_seq in Hy.
      rewrite (nth_map_seq _ _ _ _ Hy).
      apply (nth_ext _ _ undefined undefined).
      * now rewrite length_map, length_seq, Hrow.
      * intros x Hx. rewrite length_map, length_seq in Hx.
        rewrite (nth_map_seq _ _ _ _ Hx). now apply Hentry.
  - unfold transposed. now rewrite length_map, length_seq.
  - unfold transposed. rewrite (nth_map_seq _ _ _ _ Hwidth).
    now rewrite length_map, length_seq.
Qed.

(** X20: a matrix whose first row is empty transposes to the matrix
    without rows, and transposing that throws a TypeError: the round trip
    fails for a matrix without columns. *)
Theorem transpose_no_columns (matrix : list (list A)) :
  LinearAlgebra.transpose A undefined ([] :: matrix) = Return []
  /\ (let* transposed := LinearAlgebra.transpose A undefined ([] :: matrix) in
      LinearAlgebra.transpose A undefined transposed)
     = Throw TypeError.
Proof. split; reflexivity. Qed.

End TransposeFacts.

(** X19 on a matrix of two rows and three columns. *)
Lemma transpose_involutive_witness :
  [[1; 2; 3]; [4; 5; 6]]%Z <> []
  /\ (0 < 3)%nat
  /\ Forall (fun row => length row = 3%nat) [[1; 2; 3]; [4; 5; 6]]%Z
  /\ (let* transposed :=
        LinearAlgebra.transpose Z 0%Z [[1; 2; 3]; [4; 5; 6]]%Z in
      LinearAlgebra.transpose Z 0%Z transposed)
     = Return [[1; 2; 3]; [4; 5; 6]]%Z.
Proof.
  assert (Hrect : Forall (fun row : list Z => length row = 3%nat)
                    [[1; 2; 3]; [4; 5; 6]]%Z)
    by (repeat constructor).
  split; [discriminate |]. split; [lia |]. split; [exact Hrect |].
  exact (transpose_involutive Z 0%Z [[1; 2; 3]; [4; 5; 6]]%Z 3
           ltac:(discriminate) ltac:(lia) Hrect).
Defined.

Lemma fold_left_ext_in {A B : Type} (f g : A -> B -> A) (l : list B) :
  (forall a b, In b l -> f a b = g a b) ->
  forall a, fold_left f l a = fold_left g l a.
Proof.
  induction l as [|b l IH]; intros H a; simpl; [reflexivity |].
  rewrite (H a b) by now left.
  apply IH. intros a' b' Hb'. apply H. now right.
Qed.

(** X21: [transformVector] reads no more components of the vector than
    the matrix has columns: what follows them does not change the
    result. *)
Theorem transformVector_ignores_rest
    (matrix : list (list float)) (vector rest : list float) :
  (length (nth 0 matrix []) <= length vector)%nat ->
  LinearAlgebra.transformVector matrix (vector ++ rest)
  = LinearAlgebra.transformVector matrix vector.
Proof.
  intros Hwidth. destruct matrix as [|row0 rows]; [reflexivity |].
  simpl in Hwidth. unfold LinearAlgebra.transformVector.
  rewrite length_app.
  replace (Nat.min (length vector + length rest) (length row0))
    with (length row0) by lia.
  replace (Nat.min (length vector) (length row0))
    with (length row0) by lia.
  apply map_ext. intros i. apply fold_left_ext_in.
  intros acc j Hj. apply in_seq in Hj.
  rewrite app_nth1 by lia. reflexivity.
Qed.

(** X21 on a matrix with two columns and a vector with three
    components. *)
Lemma transformVector_ignores_rest_witness :
  (length (nth 0 [[1; 2]; [3; 4]] []) <= length [5; 6])%nat
  /\ LinearAlgebra.transformVector [[1; 2]; [3; 4]] ([5; 6] ++ [7])
     = LinearAlgebra.transformVector [[1; 2]; [3; 4]] [5; 6].
Proof.
  split; [simpl; lia |].
  apply (transformVector_ignores_rest [[1; 2]; [3; 4]] [5; 6] [7]).
  simpl; lia.
Defined.

(** X22: [Vector.addition] is commutative, also between vectors of
    different lengths and with NaN components. *)
Theorem vector_addition_comm (vector1 vector2 : list float) :
  LinearAlgebra.addition vector1 vector2
  = LinearAlgebra.addition vector2 vector1.
Proof.
  unfold LinearAlgebra.addition. rewrite Nat.max_comm.
  apply map_ext. intros i. apply float_add_comm.
Qed.

Lemma term_padded vector i :
  LinearAlgebra.term (vector ++ [0]) i = LinearAlgebra.term vector i.
Proof.
  unfold LinearAlgebra.term.
  destruct (Nat.lt_ge_cases i (length vector)) as [Hlt | Hge].
  - now rewrite lookup_app_l.
  - rewrite lookup_app_r, (lookup_ge_None_2 vector i) by exact Hge.
    now destruct (i - length vector)%nat as [|[|k]].
Qed.

(** X23: a component that is missing counts as zero: adding or
    subtracting a vector gives the same result when the shorter operand
    is extended by a zero. *)
Theorem vector_missing_component_is_zero (vector1 vector2 : list float) :
  (length vector1 < length vector2)%nat ->
  LinearAlgebra.addition (vector1 ++ [0]) vector2
  = LinearAlgebra.addition vector1 vector2
  /\ LinearAlgebra.subtraction (vector1 ++ [0]) vector2
     = LinearAlgebra.subtraction vector1 vector2
  /\ LinearAlgebra.subtraction vector2 (vector1 ++ [0])
     = LinearAlgebra.subtraction vector2 vector1.
Proof.
  intros Hlen.
  unfold LinearAlgebra.addition, LinearAlgebra.subtraction.
  rewrite length_app. simpl length.
  replace (Nat.max (length vector1 + 1) (length vector2))
    with (Nat.max (length vector1) (length vector2)) by lia.
  replace (Nat.max (length vector2) (length vector1 + 1))
    with (Nat.max (length vector2) (length vector1)) by lia.
  repeat split; apply map_ext; intros i; now rewrite term_padded.
Qed.

(** X23 on vectors of one and two components. *)
Lemma vector_missing_component_is_zero_witness :
  (length [1] < length [2; 3])%nat
  /\ LinearAlgebra.addition ([1] ++ [0]) [2; 3]
     = LinearAlgebra.addition [1] [2; 3].
Proof.
  split; [simpl; lia |].
  apply (vector_missing_component_is_zero [1] [2; 3]). simpl; lia.
Defined.
